(** * Funnel aggregation of [data_processor.py]

    A shallow embedding of the aggregation functions of
    [data_processor.py]: [generate_funnel_analysis],
    [generate_bottleneck_analysis], [generate_device_analysis] and
    [generate_traffic_analysis].

    Modelling conventions.
    - A clickstream [DataFrame] is the list of its rows, in row order; every
      column of an event is a string, except [timestamp], an instant counted
      in integer ticks.  Missing cells (NaN, NaT) are not modelled.
    - Python exceptions are values of [exn], carried by [result].
    - A Python [float] is a [pyfloat]: an exact rational or one of the three
      non-finite values.  [int / int] is correctly rounded, and rounding is
      monotone and fixes 0 and 1, so the order facts below transfer to the
      binary64 values for counts below 2^50.
    - A cell rendered with the format [.1%] is kept as [pct r], the value
      that is rendered, so that what a row carries can be compared. *)

From Stdlib Require Import ZArith QArith List String Ascii Bool Lia.
From Stdlib Require Import Permutation Sorted.
Import ListNotations.

Local Open Scope Z_scope.

(** ** Exceptions *)

Inductive exn : Type :=
| ZeroDivisionError
| IndexError
| KeyError
| ValueError.

Inductive result (A : Type) : Type :=
| Ok (a : A)
| Raise (e : exn).

Arguments Ok {A} a.
Arguments Raise {A} e.

Definition bind {A B : Type} (c : result A) (k : A -> result B) : result B :=
  match c with
  | Ok a => k a
  | Raise e => Raise e
  end.

Notation "x <- c ;; k" := (bind c (fun x => k))
  (at level 61, c at next level, right associativity).

Fixpoint mapM {A B : Type} (f : A -> result B) (l : list A) : result (list B) :=
  match l with
  | [] => Ok []
  | x :: xs => y <- f x ;; ys <- mapM f xs ;; Ok (y :: ys)
  end.

(** [l[i]] on a Python list, [df.iloc[i]] on a frame. *)
Definition getitem {A : Type} (l : list A) (i : nat) : result A :=
  match nth_error l i with
  | Some x => Ok x
  | None => Raise IndexError
  end.

(** [range(n)] for an integer [n]: empty when [n <= 0]. *)
Definition range (n : Z) : list nat := seq 0 (Z.to_nat n).

Definition len {A : Type} (l : list A) : Z := Z.of_nat (List.length l).

(** ** Floats *)

Inductive pyfloat : Type :=
| Finite (q : Q)
| PosInf
| NegInf
| NaN.

Definition Qdiv_int (a b : Z) : Q := (inject_Z a / inject_Z b)%Q.

(** [a / b] on Python ints. *)
Definition py_truediv (a b : Z) : result pyfloat :=
  if b =? 0 then Raise ZeroDivisionError else Ok (Finite (Qdiv_int a b)).

(** [a / b] on [numpy.int64] scalars: no exception, a non-finite value. *)
Definition np_truediv (a b : Z) : pyfloat :=
  if b =? 0 then
    (if 0 <? a then PosInf else if a <? 0 then NegInf else NaN)
  else Finite (Qdiv_int a b).

Definition Qltb (x y : Q) : bool := negb (Qle_bool y x).

(** [r > c] for a float [r] and a finite literal [c]. *)
Definition float_gt (r : pyfloat) (c : Q) : bool :=
  match r with
  | Finite q => Qltb c q
  | PosInf => true
  | NegInf => false
  | NaN => false
  end.

(** A string cell of an output frame. *)
Inductive cell : Type :=
| NA                     (* 'N/A' *)
| pct (r : pyfloat).     (* f"{r:.1%}" *)

(** ** Events *)

Record Event : Type := mkEvent {
  event_id : string;
  session_id : string;
  user_id : string;
  timestamp : Z;
  page : string;
  action : string;
  device : string;
  traffic_source : string;
  metadata : string
}.

Definition DataFrame : Type := list Event.

Definition empty {A : Type} (df : list A) : bool :=
  match df with
  | [] => true
  | _ :: _ => false
  end.

(** [Series.unique()]: the distinct values, in order of first appearance. *)
Fixpoint unique (l : list string) : list string :=
  match l with
  | [] => []
  | x :: xs => x :: filter (fun y => negb (String.eqb x y)) (unique xs)
  end.

(** [Series.nunique()]. *)
Definition nunique (l : list string) : Z := len (unique l).

(** [df[(df['page'] == p) & (df['action'] == a)]] *)
Definition page_action_is (p a : string) (e : Event) : bool :=
  String.eqb (page e) p && String.eqb (action e) a.

(** ** Funnel definition *)

Definition FUNNEL_STAGES : list (string * string) :=
  [ ("homepage", "page_view");
    ("category_page", "page_view");
    ("product_page", "page_view");
    ("product_page", "add_to_cart");
    ("cart_page", "page_view");
    ("checkout_page", "page_view");
    ("payment_page", "page_view");
    ("payment_page", "purchase") ]%string.

Definition FUNNEL_LABELS : list string :=
  [ "Homepage Visit";
    "Category Page Visit";
    "Product Page Visit";
    "Add to Cart";
    "Cart View";
    "Checkout";
    "Payment";
    "Purchase" ]%string.

(** ** Funnel aggregation *)

Record FunnelRow : Type := mkFunnelRow {
  Stage : string;
  Sessions : Z;
  Conversion_Rate_from_Start : cell;
  Drop_Rate_to_Next : cell
}.

(** [pd.DataFrame({...})] on four columns: the columns must agree in length. *)
Fixpoint funnel_frame (stage : list string) (sessions : list Z)
    (conv : list cell) (drop : list cell) : result (list FunnelRow) :=
  match stage, sessions, conv, drop with
  | [], [], [], [] => Ok []
  | s :: stage', n :: sessions', c :: conv', d :: drop' =>
      rows <- funnel_frame stage' sessions' conv' drop' ;;
      Ok (mkFunnelRow s n c d :: rows)
  | _, _, _, _ => Raise ValueError
  end.

(** The time filter: [df[(df['timestamp'] >= start) & (df['timestamp'] <= end)]]
    when a filter is given. *)
Definition apply_time_filter (time_filter : option (Z * Z)) (df : DataFrame)
    : DataFrame :=
  match time_filter with
  | Some (start_date, end_date) =>
      filter (fun e => (start_date <=? timestamp e) && (timestamp e <=? end_date)) df
  | None => df
  end.

Definition stage_sessions (df : DataFrame) (stage : string * string) : Z :=
  let '(p, a) := stage in
  nunique (map session_id (filter (page_action_is p a) df)).

Definition conversion_rate (unique_sessions count : Z) : result pyfloat :=
  if 0 <? unique_sessions then py_truediv count unique_sessions
  else Ok (Finite 0).

Definition drop_rate_at (funnel_counts : list Z) (i : nat) : result pyfloat :=
  ci <- getitem funnel_counts i ;;
  if 0 <? ci then
    cn <- getitem funnel_counts (i + 1) ;;
    py_truediv (ci - cn) ci
  else Ok (Finite 0).

(** The body of [generate_funnel_analysis], over the two module globals it
    reads. *)
Definition generate_funnel_analysis_in
    (stages : list (string * string)) (labels : list string)
    (df : DataFrame) (time_filter : option (Z * Z)) : result (list FunnelRow) :=
  if empty df then Ok []
  else
    let df := apply_time_filter time_filter df in
    let unique_sessions := nunique (map session_id df) in
    let funnel_counts := map (stage_sessions df) stages in
    conversion_rates <- mapM (conversion_rate unique_sessions) funnel_counts ;;
    rates <- mapM (drop_rate_at funnel_counts) (range (len funnel_counts - 1)) ;;
    let drop_rates := NA :: map pct rates in
    funnel_frame labels funnel_counts (map pct conversion_rates) drop_rates.

Definition generate_funnel_analysis (df : DataFrame)
    (time_filter : option (Z * Z)) : result (list FunnelRow) :=
  generate_funnel_analysis_in FUNNEL_STAGES FUNNEL_LABELS df time_filter.

(** ** Bottleneck analysis *)

Inductive severity : Type :=
| High
| Medium
| Low.

Record BottleneckRow : Type := mkBottleneckRow {
  Transition : string;
  Sessions_Lost : Z;
  Drop_Rate : cell;
  Drop_Rate_Numeric : pyfloat;
  Severity : severity
}.

(** Lines 125-128: the drop rate of one transition, on [numpy.int64] cells. *)
Definition transition_drop_rate (current_sessions sessions_lost : Z) : pyfloat :=
  if 0 <? current_sessions then np_truediv sessions_lost current_sessions
  else Finite 0.

(** Lines 131-136. *)
Definition assign_severity (drop_rate : pyfloat) : severity :=
  if float_gt drop_rate (3 # 10) then High
  else if float_gt drop_rate (3 # 20) then Medium
  else Low.

(** One iteration of the loop over [range(len(FUNNEL_LABELS) - 1)].  The
    session counts are [numpy.int64] cells; their difference is taken in Z,
    which is the value the code computes whenever both counts are
    non-negative, as counts of sessions are. *)
Definition bottleneck_row (labels : list string) (funnel_df : list FunnelRow)
    (i : nat) : result BottleneckRow :=
  cur <- getitem funnel_df i ;;
  nxt <- getitem funnel_df (i + 1) ;;
  let current_sessions := Sessions cur in
  let next_sessions := Sessions nxt in
  let sessions_lost := current_sessions - next_sessions in
  let drop_rate := transition_drop_rate current_sessions sessions_lost in
  let sev := assign_severity drop_rate in
  label_i <- getitem labels i ;;
  label_j <- getitem labels (i + 1) ;;
  Ok (mkBottleneckRow (label_i ++ " → " ++ label_j)%string sessions_lost
        (pct drop_rate) drop_rate sev).

(** The order of [sort_values(..., ascending=False)] on a float column:
    larger first, NaN last. *)
Definition key_ge (a b : pyfloat) : bool :=
  match a, b with
  | _, NaN => true
  | NaN, _ => false
  | PosInf, _ => true
  | _, NegInf => true
  | NegInf, _ => false
  | Finite _, PosInf => false
  | Finite x, Finite y => Qle_bool y x
  end.

Definition drop_ge (a b : BottleneckRow) : Prop :=
  key_ge (Drop_Rate_Numeric a) (Drop_Rate_Numeric b) = true.

(** [DataFrame.sort_values('Drop_Rate_Numeric', ascending=False)].  The call
    leaves [kind] at its default, 'quicksort', which pandas documents as not
    stable: what the call promises is a rearrangement of the rows in
    descending key order, and nothing about rows of equal key. *)
Class SortValues : Type := {
  sort_values_desc : list BottleneckRow -> list BottleneckRow;
  sort_values_perm : forall l, Permutation l (sort_values_desc l);
  sort_values_sorted : forall l, StronglySorted drop_ge (sort_values_desc l)
}.

(** [pd.DataFrame(bottleneck_data).sort_values('Drop_Rate_Numeric',
    ascending=False)]: a frame built from no record has no column, and
    sorting it by a column raises [KeyError]. *)
Definition sort_values `{SortValues} (bottleneck_data : list BottleneckRow)
    : result (list BottleneckRow) :=
  match bottleneck_data with
  | [] => Raise KeyError
  | _ :: _ => Ok (sort_values_desc bottleneck_data)
  end.

Definition generate_bottleneck_analysis_in `{SortValues} (labels : list string)
    (funnel_df : list FunnelRow) : result (list BottleneckRow) :=
  if empty funnel_df then Ok []
  else
    bottleneck_data <- mapM (bottleneck_row labels funnel_df)
                            (range (len labels - 1)) ;;
    sort_values bottleneck_data.

Definition generate_bottleneck_analysis `{SortValues}
    (funnel_df : list FunnelRow) : result (list BottleneckRow) :=
  generate_bottleneck_analysis_in FUNNEL_LABELS funnel_df.

(** Two sorts by insertion that meet the contract.  [before x y] decides
    whether a row [x], which stood before [y] in the frame, stays before it. *)
Fixpoint insert_row (before : BottleneckRow -> BottleneckRow -> bool)
    (x : BottleneckRow) (l : list BottleneckRow) : list BottleneckRow :=
  match l with
  | [] => [x]
  | y :: l' => if before x y then x :: y :: l' else y :: insert_row before x l'
  end.

Fixpoint insertion_sort (before : BottleneckRow -> BottleneckRow -> bool)
    (l : list BottleneckRow) : list BottleneckRow :=
  match l with
  | [] => []
  | x :: l' => insert_row before x (insertion_sort before l')
  end.

(** Rows of equal key keep their order: a stable kind. *)
Definition before_stable (x y : BottleneckRow) : bool :=
  key_ge (Drop_Rate_Numeric x) (Drop_Rate_Numeric y).

(** Rows of equal key swap their order. *)
Definition before_strict (x y : BottleneckRow) : bool :=
  negb (key_ge (Drop_Rate_Numeric y) (Drop_Rate_Numeric x)).

(** ** Segment analysis *)

Definition is_upper (c : ascii) : bool :=
  let n := nat_of_ascii c in (65 <=? n)%nat && (n <=? 90)%nat.

Definition is_lower (c : ascii) : bool :=
  let n := nat_of_ascii c in (97 <=? n)%nat && (n <=? 122)%nat.

Definition upper (c : ascii) : ascii :=
  if is_lower c then ascii_of_nat (nat_of_ascii c - 32) else c.

Definition lower (c : ascii) : ascii :=
  if is_upper c then ascii_of_nat (nat_of_ascii c + 32) else c.

Fixpoint str_map (f : ascii -> ascii) (s : string) : string :=
  match s with
  | EmptyString => EmptyString
  | String c s' => String (f c) (str_map f s')
  end.

(** [str.capitalize()], on ASCII text. *)
Definition capitalize (s : string) : string :=
  match s with
  | EmptyString => EmptyString
  | String c s' => String (upper c) (str_map lower s')
  end.

(** [str.title()], on ASCII text: [in_word] tells whether the previous
    character was a letter. *)
Fixpoint title_from (in_word : bool) (s : string) : string :=
  match s with
  | EmptyString => EmptyString
  | String c s' =>
      if is_upper c || is_lower c then
        String (if in_word then lower c else upper c) (title_from true s')
      else String c (title_from false s')
  end.

Definition title (s : string) : string := title_from false s.

(** [s.replace('_', ' ')] *)
Definition replace_underscore (s : string) : string :=
  str_map (fun c => if Ascii.eqb c "_" then " "%char else c) s.

Definition is_purchase (e : Event) : bool :=
  page_action_is "payment_page" "purchase" e.

Record DeviceRow : Type := mkDeviceRow {
  Device : string;
  Total_Sessions : Z;
  Conversions : Z;
  Conversion_Rate : cell;
  Conversion_Rate_Numeric : pyfloat
}.

Record TrafficRow : Type := mkTrafficRow {
  Traffic_Source : string;
  T_Sessions : Z;                      (* column 'Sessions' *)
  T_Conversions : Z;                   (* column 'Conversions' *)
  T_Conversion_Rate : cell;            (* column 'Conversion_Rate' *)
  T_Conversion_Rate_Numeric : pyfloat  (* column 'Conversion_Rate_Numeric' *)
}.

Definition segment_rate (total_sessions purchase_sessions : Z) : result pyfloat :=
  if 0 <? total_sessions then py_truediv purchase_sessions total_sessions
  else Ok (Finite 0).

(** One iteration of the loop of [generate_device_analysis]. *)
Definition device_row (df : DataFrame) (dev : string) : result DeviceRow :=
  let device_df := filter (fun e => String.eqb (device e) dev) df in
  let total_sessions := nunique (map session_id device_df) in
  let purchase_sessions :=
    nunique (map session_id (filter is_purchase device_df)) in
  conversion_rate <- segment_rate total_sessions purchase_sessions ;;
  Ok (mkDeviceRow (capitalize dev) total_sessions purchase_sessions
        (pct conversion_rate) conversion_rate).

Definition generate_device_analysis (df : DataFrame) : result (list DeviceRow) :=
  if empty df then Ok []
  else
    let devices := unique (map device df) in
    mapM (device_row df) devices.

(** One iteration of the loop of [generate_traffic_analysis]. *)
Definition traffic_row (df : DataFrame) (source : string) : result TrafficRow :=
  let source_df := filter (fun e => String.eqb (traffic_source e) source) df in
  let total_sessions := nunique (map session_id source_df) in
  let purchase_sessions :=
    nunique (map session_id (filter is_purchase source_df)) in
  conversion_rate <- segment_rate total_sessions purchase_sessions ;;
  Ok (mkTrafficRow (title (replace_underscore source)) total_sessions
        purchase_sessions (pct conversion_rate) conversion_rate).

Definition generate_traffic_analysis (df : DataFrame) : result (list TrafficRow) :=
  if empty df then Ok []
  else
    let sources := unique (map traffic_source df) in
    mapM (traffic_row df) sources.

(** ** Reference values

    What the loops above compute, written without the error monad; the
    theorems relate the code to these. *)

(** The frame the aggregation works on: the events left by the time filter. *)
Definition filtered (df : DataFrame) (time_filter : option (Z * Z)) : DataFrame :=
  apply_time_filter time_filter df.

Definition total_sessions_of (df : DataFrame) : Z :=
  nunique (map session_id df).

Definition conversion_value (unique_sessions count : Z) : pyfloat :=
  if 0 <? unique_sessions then Finite (Qdiv_int count unique_sessions)
  else Finite 0.

(** [(ci - cn) / ci], or 0 when [ci] is not positive. *)
Definition drop_value (ci cn : Z) : pyfloat :=
  if 0 <? ci then Finite (Qdiv_int (ci - cn) ci) else Finite 0.

Definition drop_values (counts : list Z) : list pyfloat :=
  map (fun i => drop_value (nth i counts 0) (nth (i + 1) counts 0))
      (range (len counts - 1)).

(** Row [i] of the funnel frame, for the stage counts [counts] and
    [unique_sessions] sessions in all: the first row has no drop rate, and
    row [j + 1] has the drop rate from stage [j] to stage [j + 1]. *)
Definition funnel_row_at (labels : list string) (counts : list Z)
    (unique_sessions : Z) (i : nat) : FunnelRow :=
  mkFunnelRow (nth i labels ""%string) (nth i counts 0)
    (pct (conversion_value unique_sessions (nth i counts 0)))
    (match i with
     | O => NA
     | S j => pct (drop_value (nth j counts 0) (nth i counts 0))
     end).

Definition stage_counts (stages : list (string * string)) (df : DataFrame)
    : list Z :=
  map (stage_sessions df) stages.

(** The rows of the loop of [generate_bottleneck_analysis] in stage order,
    before sorting. *)
Definition transition_row (labels : list string) (funnel_df : list FunnelRow)
    (i : nat) : BottleneckRow :=
  let cur := Sessions (nth i funnel_df (mkFunnelRow "" 0 NA NA)) in
  let nxt := Sessions (nth (i + 1) funnel_df (mkFunnelRow "" 0 NA NA)) in
  let r := transition_drop_rate cur (cur - nxt) in
  mkBottleneckRow (nth i labels "" ++ " → " ++ nth (i + 1) labels "")%string
    (cur - nxt) (pct r) r (assign_severity r).

Definition transition_rows (labels : list string) (funnel_df : list FunnelRow)
    : list BottleneckRow :=
  map (transition_row labels funnel_df) (range (len labels - 1)).

(** The segment aggregation in the words of the specification, for a
    partition column [key]: per distinct value of the column, the distinct
    sessions among the events carrying the value, the distinct sessions among
    those same events that are purchases, and their quotient (0 for no
    session). *)
Definition segment_numbers (key : Event -> string) (df : DataFrame)
    (v : string) : Z * Z * pyfloat :=
  let events := filter (fun e => String.eqb (key e) v) df in
  let total := nunique (map session_id events) in
  let converted := nunique (map session_id (filter is_purchase events)) in
  (total, converted,
   if total =? 0 then Finite 0 else Finite (Qdiv_int converted total)).

Definition segment_conversion (key : Event -> string) (df : DataFrame)
    : list (Z * Z * pyfloat) :=
  map (segment_numbers key df) (unique (map key df)).

Definition device_numbers (r : DeviceRow) : Z * Z * pyfloat :=
  (Total_Sessions r, Conversions r, Conversion_Rate_Numeric r).

Definition traffic_numbers (r : TrafficRow) : Z * Z * pyfloat :=
  (T_Sessions r, T_Conversions r, T_Conversion_Rate_Numeric r).

(** What a row of a segment analyzer holds for the partition value it was
    built from. *)
Definition device_row_of (df : DataFrame) (dev : string) (row : DeviceRow)
    : Prop :=
  Device row = capitalize dev /\
  device_numbers row = segment_numbers device df dev /\
  Conversion_Rate row = pct (Conversion_Rate_Numeric row).

Definition traffic_row_of (df : DataFrame) (source : string)
    (row : TrafficRow) : Prop :=
  Traffic_Source row = title (replace_underscore source) /\
  traffic_numbers row = segment_numbers traffic_source df source /\
  T_Conversion_Rate row = pct (T_Conversion_Rate_Numeric row).

(** Exchange the [device] and [traffic_source] cells of an event. *)
Definition swap_segments (e : Event) : Event :=
  mkEvent (event_id e) (session_id e) (user_id e) (timestamp e) (page e)
    (action e) (traffic_source e) (device e) (metadata e).

(** The reading of "converted" under which a purchase anywhere in the session
    counts: the sessions with an event at partition value [v] and a purchase
    event of any partition value. *)
Definition session_has_purchase (df : DataFrame) (s : string) : bool :=
  existsb (fun e => String.eqb (session_id e) s && is_purchase e) df.

Definition converted_anywhere (key : Event -> string) (df : DataFrame)
    (v : string) : Z :=
  nunique (map session_id
    (filter (fun e => String.eqb (key e) v
                      && session_has_purchase df (session_id e)) df)).

(** ** Sample frames *)

Definition ev (sid : string) (ts : Z) (p a dev src : string) : Event :=
  mkEvent "" sid "" ts p a dev src "".

(** One session on the homepage, two on the category page. *)
Definition revisit_df : DataFrame :=
  [ ev "s1" 10 "homepage" "page_view" "desktop" "direct";
    ev "s1" 11 "category_page" "page_view" "desktop" "direct";
    ev "s2" 12 "category_page" "page_view" "mobile" "email" ]%string.

(** One session that browses on a phone and buys on a desktop. *)
Definition cross_device_df : DataFrame :=
  [ ev "s1" 10 "homepage" "page_view" "mobile" "email";
    ev "s1" 20 "payment_page" "purchase" "desktop" "direct" ]%string.

(** One homepage visit, at instant 20. *)
Definition boundary_df : DataFrame :=
  [ ev "s1" 20 "homepage" "page_view" "desktop" "direct" ]%string.

(** Funnel frames with the given session counts. *)
Definition frame_of_counts (counts : list Z) : list FunnelRow :=
  map (fun c => mkFunnelRow "" c NA NA) counts.

(** ** The processing run ([process_and_save_all_data])

    The files the run reads and writes, each holding the frame that was
    saved to it, if any; what it prints is kept as a list of messages.  The
    clickstream file, when there is one, is taken to read as a frame with
    every cell present: a file that fails to parse is outside this model. *)

Record FileSystem : Type := mkFileSystem {
  clickstream_data_csv : option DataFrame;
  ecommerce_funnel_analysis_csv : option (list FunnelRow);
  ecommerce_bottleneck_analysis_csv : option (list BottleneckRow);
  ecommerce_device_analysis_csv : option (list DeviceRow);
  ecommerce_traffic_source_analysis_csv : option (list TrafficRow)
}.

Inductive Message : Type :=
| FileNotFoundWarning                 (* "Warning: ... not found. ..." *)
| NoDataForProcessing                 (* "No data available for processing." *)
| ProcessingComplete                  (* "Data processing complete. ..." *)
| TotalEvents (n : Z)                 (* "Total Events: {n}" *)
| UniqueSessions (n : Z)              (* "Unique Sessions: {n}" *)
| ConversionRate (c : cell)           (* "Conversion Rate: {c}" *)
| TopBottleneck (transition : string) (drop_rate : cell) (sev : severity).

(** [load_clickstream_data]: the frame of the file, an empty frame (and a
    warning) when the file does not exist. *)
Definition load_clickstream_data (fs : FileSystem) : DataFrame * list Message :=
  match clickstream_data_csv fs with
  | Some df => (df, [])
  | None => ([], [FileNotFoundWarning])
  end.

(** [df.iloc[-1]] *)
Definition iloc_last {A : Type} (df : list A) : result A :=
  match df with
  | [] => Raise IndexError
  | _ :: _ => getitem df (List.length df - 1)
  end.

(** [df.head(n)] *)
Definition head {A : Type} (n : nat) (df : list A) : list A := firstn n df.

Definition save_funnel (fs : FileSystem) (f : list FunnelRow) : FileSystem :=
  mkFileSystem (clickstream_data_csv fs) (Some f)
    (ecommerce_bottleneck_analysis_csv fs) (ecommerce_device_analysis_csv fs)
    (ecommerce_traffic_source_analysis_csv fs).

Definition save_bottleneck (fs : FileSystem) (b : list BottleneckRow) : FileSystem :=
  mkFileSystem (clickstream_data_csv fs) (ecommerce_funnel_analysis_csv fs)
    (Some b) (ecommerce_device_analysis_csv fs)
    (ecommerce_traffic_source_analysis_csv fs).

Definition save_device (fs : FileSystem) (d : list DeviceRow) : FileSystem :=
  mkFileSystem (clickstream_data_csv fs) (ecommerce_funnel_analysis_csv fs)
    (ecommerce_bottleneck_analysis_csv fs) (Some d)
    (ecommerce_traffic_source_analysis_csv fs).

Definition save_traffic (fs : FileSystem) (t : list TrafficRow) : FileSystem :=
  mkFileSystem (clickstream_data_csv fs) (ecommerce_funnel_analysis_csv fs)
    (ecommerce_bottleneck_analysis_csv fs) (ecommerce_device_analysis_csv fs)
    (Some t).

(** The run returns the files as it leaves them, also when it stops on an
    exception, and the messages printed or the exception. *)
Definition process_and_save_all_data `{SortValues} (fs : FileSystem)
    : FileSystem * result (list Message) :=
  let '(df, warnings) := load_clickstream_data fs in
  if empty df then (fs, Ok (warnings ++ [NoDataForProcessing]))
  else
    match generate_funnel_analysis df None with
    | Raise e => (fs, Raise e)
    | Ok funnel_df =>
      let fs := save_funnel fs funnel_df in
      match generate_bottleneck_analysis funnel_df with
      | Raise e => (fs, Raise e)
      | Ok bottleneck_df =>
        let fs := save_bottleneck fs bottleneck_df in
        match generate_device_analysis df with
        | Raise e => (fs, Raise e)
        | Ok device_df =>
          let fs := save_device fs device_df in
          match generate_traffic_analysis df with
          | Raise e => (fs, Raise e)
          | Ok traffic_df =>
            let fs := save_traffic fs traffic_df in
            match iloc_last funnel_df with
            | Raise e => (fs, Raise e)
            | Ok last_row =>
              (fs,
               Ok (warnings ++
                   [ProcessingComplete;
                    TotalEvents (len df);
                    UniqueSessions (nunique (map session_id df));
                    ConversionRate (Conversion_Rate_from_Start last_row)] ++
                   map (fun row => TopBottleneck (Transition row)
                                     (Drop_Rate row) (Severity row))
                       (head 3 bottleneck_df)))
            end
          end
        end
      end
    end.

(** ** The dashboard's key figures ([app.py], lines 309-316)

    [total_sessions] and [total_conversions] are the session counts of the
    first and of the last row of the funnel frame, and [overall_cr] their
    quotient, on [numpy.int64] cells and without a guard. *)
Definition overall_cr (funnel_df : list FunnelRow) : result pyfloat :=
  first_row <- getitem funnel_df 0 ;;
  last_row <- iloc_last funnel_df ;;
  let total_sessions := Sessions first_row in
  let total_conversions := Sessions last_row in
  Ok (np_truediv total_conversions total_sessions).

(** ** The event generator ([data_generator.py])

    What the random draws of a call returned is an argument of the model. *)

Definition PAGES : list string :=
  [ "homepage"; "category_page"; "product_page"; "cart_page";
    "checkout_page"; "payment_page"; "order_confirmation" ]%string.

Definition TRAFFIC_SOURCES : list string :=
  [ "organic_search"; "paid_search"; "social_media"; "direct"; "email";
    "referral" ]%string.

Definition DEVICES : list string := [ "desktop"; "mobile"; "tablet" ]%string.

Definition USER_ACTIONS : list string :=
  [ "page_view"; "click"; "add_to_cart"; "remove_from_cart";
    "begin_checkout"; "purchase" ]%string.

(** [x in l] on strings. *)
Definition str_in (x : string) (l : list string) : bool :=
  existsb (String.eqb x) l.

(** Lines 26-36 of [generate_event]: the drawn action is replaced when the
    page does not allow it. *)
Definition constrain_action (page action : string) : string :=
  let action :=
    if str_in page ["homepage"; "category_page"]%string
       && str_in action ["add_to_cart"; "remove_from_cart"; "begin_checkout";
                         "purchase"]%string
    then "click"%string else action in
  let action :=
    if String.eqb page "product_page"
       && str_in action ["begin_checkout"; "purchase"]%string
    then "add_to_cart"%string else action in
  let action :=
    if str_in page ["checkout_page"; "payment_page"]%string
       && str_in action ["add_to_cart"]%string
    then "click"%string else action in
  let action :=
    if String.eqb page "order_confirmation"
       && negb (str_in action ["page_view"]%string)
    then "page_view"%string else action in
  action.

(** The outcome of the draws of one call of [generate_event].  The two
    metadata dictionaries the call may build from further draws are kept as
    the text that is saved for them. *)
Record Draws : Type := mkDraws {
  drawn_page : string;
  drawn_action : string;
  drawn_event_id : string;
  drawn_device : string;
  drawn_traffic_source : string;
  drawn_product_metadata : string;
  drawn_order_metadata : string
}.

Definition generate_event (session_id user_id : string) (timestamp : Z)
    (d : Draws) : Event :=
  let page := drawn_page d in
  let action := constrain_action page (drawn_action d) in
  let metadata := "{}"%string in
  let metadata :=
    if String.eqb action "add_to_cart" || String.eqb action "remove_from_cart"
    then drawn_product_metadata d else metadata in
  let metadata :=
    if String.eqb action "purchase" then drawn_order_metadata d else metadata in
  mkEvent (drawn_event_id d) session_id user_id timestamp page action
    (drawn_device d) (drawn_traffic_source d) metadata.

(** [event['page'] = p; event['action'] = a], and [event['metadata'] = m]
    where the session builds a new dictionary. *)
Definition set_step (e : Event) (p a : string) (m : option string) : Event :=
  mkEvent (event_id e) (session_id e) (user_id e) (timestamp e) p a
    (device e) (traffic_source e)
    (match m with Some text => text | None => metadata e end).

(** The steps of a complete-funnel session, in the order they are appended:
    page, action, and whether the metadata is rebuilt. *)
Definition complete_funnel_steps (checkout purchase : bool)
    : list (string * string * bool) :=
  [ ("homepage", "page_view", false);
    ("category_page", "page_view", false);
    ("product_page", "page_view", false);
    ("product_page", "add_to_cart", true);
    ("cart_page", "page_view", false) ]%string
  ++ (if checkout then
        [ ("cart_page", "begin_checkout", false);
          ("checkout_page", "page_view", false);
          ("payment_page", "page_view", false) ]%string
        ++ (if purchase then
              [ ("payment_page", "purchase", true);
                ("order_confirmation", "page_view", false) ]%string
            else [])
      else []).

(** The outcome of the draws of one call of [generate_session]: the two
    identifiers, the base time, the branch decisions, the number of events
    of a partial session, and for the [i]-th event the draws of its
    [generate_event] call, the pause (in seconds) added after it and the
    metadata text built for it when the session rebuilds the metadata. *)
Record SessionDraws : Type := mkSessionDraws {
  drawn_session_id : string;
  drawn_user_id : string;
  base_time : Z;
  complete_funnel : bool;
  continue_to_checkout : bool;
  complete_purchase : bool;
  num_events : nat;
  event_draws : nat -> Draws;
  pause : nat -> Z;
  rebuilt_metadata : nat -> string
}.

(** [current_time] when the [i]-th event is generated, in microseconds:
    [timedelta(seconds=n)] is n million of them. *)
Fixpoint current_time (s : SessionDraws) (i : nat) : Z :=
  match i with
  | O => base_time s
  | S j => current_time s j + 1000000 * pause s j
  end.

Definition generate_session (s : SessionDraws) : list Event :=
  let event i :=
    generate_event (drawn_session_id s) (drawn_user_id s) (current_time s i)
      (event_draws s i) in
  if complete_funnel s then
    let steps :=
      complete_funnel_steps (continue_to_checkout s) (complete_purchase s) in
    map (fun i =>
           let '(p, a, rebuilt) := nth i steps (""%string, ""%string, false) in
           set_step (event i) p a
             (if rebuilt then Some (rebuilt_metadata s i) else None))
        (seq 0 (List.length steps))
  else
    map event (seq 0 (num_events s)).

(** The loop of [generate_and_save_events]: the events of all sessions. *)
Definition all_events (sessions : list SessionDraws) : DataFrame :=
  List.concat (map generate_session sessions).

(** Whether a session is one [generate_session] can draw: the pauses are
    between 5 and 30 seconds in a complete-funnel session and between 1 and
    120 otherwise, and a partial session has 1 to 7 events. *)
Definition drawable (s : SessionDraws) : Prop :=
  if complete_funnel s then forall i, 5 <= pause s i <= 30
  else (1 <= num_events s <= 7)%nat /\ forall i, 1 <= pause s i <= 120.

(** A complete-funnel session that stops at the payment page. *)
Definition sample_session : SessionDraws :=
  mkSessionDraws "s1" "7" 1000 true true false 0
    (fun _ => mkDraws "homepage" "click" "e" "mobile" "email" "{...}" "{...}")
    (fun _ => 5) (fun _ => "{...}"%string).

(** ** Forward-only data

    Every session with an event of a stage also has an event of the stage
    before it. *)
Definition forward_only (stages : list (string * string)) (df : DataFrame)
    : Prop :=
  forall k p a p' a' e,
    nth_error stages k = Some (p, a) ->
    nth_error stages (S k) = Some (p', a') ->
    In e df -> page e = p' -> action e = a' ->
    exists e0, In e0 df /\ session_id e0 = session_id e /\
               page e0 = p /\ action e0 = a.

Definition sum_Z (l : list Z) : Z := fold_right Z.add 0 l.

(** * Properties *)

(** ** Distinct values *)

Section Unique.

Lemma unique_In (l : list string) (x : string) :
  In x (unique l) <-> In x l.
Proof.
  induction l as [|y l IH]; simpl; [tauto|].
  rewrite filter_In, IH.
  destruct (String.eqb_spec y x) as [->|Hne]; simpl.
  - split; [tauto | auto].
  - split.
    + intros [H | [H _]]; auto.
    + intros [H | H]; [congruence | auto].
Qed.

Lemma NoDup_filter {A : Type} (f : A -> bool) (l : list A) :
  NoDup l -> NoDup (filter f l).
Proof.
  induction 1 as [|x l Hx Hl IH]; simpl; [constructor|].
  destruct (f x); auto.
  constructor; auto.
  rewrite filter_In; tauto.
Qed.

Lemma unique_NoDup (l : list string) : NoDup (unique l).
Proof.
  induction l as [|y l IH]; simpl; constructor.
  - rewrite filter_In, String.eqb_refl; simpl. intros [_ H]; discriminate.
  - now apply NoDup_filter.
Qed.

Lemma nunique_nonneg (l : list string) : 0 <= nunique l.
Proof. unfold nunique, len; lia. Qed.

Lemma nunique_incl (l l' : list string) :
  incl l l' -> nunique l <= nunique l'.
Proof.
  intros Hincl. unfold nunique, len. apply inj_le.
  apply NoDup_incl_length; [apply unique_NoDup|].
  intros s Hs. apply unique_In, Hincl, unique_In, Hs.
Qed.

Lemma stage_sessions_le (df : DataFrame) (st : string * string) :
  0 <= stage_sessions df st <= total_sessions_of df.
Proof.
  destruct st as [p a]; unfold stage_sessions, total_sessions_of; split.
  - apply nunique_nonneg.
  - apply nunique_incl. intros s Hs.
    apply in_map_iff in Hs as (e & <- & He).
    apply filter_In in He as [He _]. now apply in_map.
Qed.

End Unique.

(** ** The error monad *)

Section Monad.

Context {A B : Type}.

Lemma mapM_total (f : A -> result B) (g : A -> B) (l : list A) :
  (forall x, In x l -> f x = Ok (g x)) -> mapM f l = Ok (map g l).
Proof.
  induction l as [|x l IH]; intros Hf; simpl; [reflexivity|].
  rewrite (Hf x) by (now left); simpl.
  rewrite IH by (intros y Hy; apply Hf; now right).
  reflexivity.
Qed.

Lemma getitem_nth (l : list A) (i : nat) (d : A) :
  (i < List.length l)%nat -> getitem l i = Ok (nth i l d).
Proof.
  intros Hi. unfold getitem.
  now rewrite (nth_error_nth' l d Hi).
Qed.

Lemma getitem_out (l : list A) (i : nat) :
  (List.length l <= i)%nat -> getitem l i = Raise IndexError.
Proof.
  intros Hi. unfold getitem.
  apply nth_error_None in Hi. now rewrite Hi.
Qed.

End Monad.

Lemma range_In (n : Z) (i : nat) : In i (range n) <-> Z.of_nat i < n.
Proof. unfold range. rewrite in_seq. lia. Qed.

Lemma range_length (n : Z) : List.length (range n) = Z.to_nat n.
Proof. unfold range. apply length_seq. Qed.

Lemma range_len_pred {A : Type} (l : list A) :
  range (len l - 1) = seq 0 (List.length l - 1).
Proof. unfold range, len. f_equal. lia. Qed.

(** ** The funnel frame *)

Section FunnelFrame.

Lemma funnel_frame_rows (n : nat) :
  forall stage sessions conv drop,
    List.length stage = n -> List.length sessions = n ->
    List.length conv = n -> List.length drop = n ->
    funnel_frame stage sessions conv drop =
    Ok (map (fun i => mkFunnelRow (nth i stage ""%string) (nth i sessions 0)
                        (nth i conv NA) (nth i drop NA)) (seq 0 n)).
Proof.
  induction n as [|n IH]; intros [|s st] [|c cs] [|v vs] [|d ds];
    simpl; try discriminate; intros H1 H2 H3 H4; [reflexivity|].
  rewrite (IH st cs vs ds) by congruence. simpl.
  now rewrite <- seq_shift, map_map.
Qed.

Lemma funnel_frame_mismatch stage sessions conv drop :
  List.length stage <> List.length sessions ->
  funnel_frame stage sessions conv drop = Raise ValueError.
Proof.
  revert sessions conv drop.
  induction stage as [|s st IH]; intros [|c cs] [|v vs] [|d ds];
    simpl; intros H; try reflexivity; try congruence.
  rewrite IH; auto.
Qed.

Lemma conversion_rate_value (u c : Z) :
  conversion_rate u c = Ok (conversion_value u c).
Proof.
  unfold conversion_rate, conversion_value, py_truediv.
  destruct (0 <? u) eqn:Hu; [|reflexivity].
  apply Z.ltb_lt in Hu.
  destruct (Z.eqb_spec u 0); [lia | reflexivity].
Qed.

Lemma drop_rate_at_value (counts : list Z) (i : nat) :
  (i + 1 < List.length counts)%nat ->
  drop_rate_at counts i =
  Ok (drop_value (nth i counts 0) (nth (i + 1) counts 0)).
Proof.
  intros Hi. unfold drop_rate_at, drop_value, py_truediv.
  rewrite (getitem_nth counts i 0) by lia. simpl.
  destruct (0 <? nth i counts 0) eqn:Hc; [|reflexivity].
  rewrite (getitem_nth counts (i + 1) 0) by lia. simpl.
  apply Z.ltb_lt in Hc.
  destruct (Z.eqb_spec (nth i counts 0) 0); [lia | reflexivity].
Qed.

Lemma drop_rates_value (counts : list Z) :
  mapM (drop_rate_at counts) (range (len counts - 1)) = Ok (drop_values counts).
Proof.
  unfold drop_values. apply mapM_total.
  intros i Hi. apply range_In in Hi.
  apply drop_rate_at_value. unfold len in Hi. lia.
Qed.

Lemma drop_values_length (counts : list Z) :
  List.length (drop_values counts) = (List.length counts - 1)%nat.
Proof.
  unfold drop_values. rewrite length_map, range_length. unfold len. lia.
Qed.

Lemma drop_values_nth (counts : list Z) (j : nat) (d : pyfloat) :
  (j + 1 < List.length counts)%nat ->
  nth j (drop_values counts) d =
  drop_value (nth j counts 0) (nth (j + 1) counts 0).
Proof.
  intros Hj. unfold drop_values.
  rewrite range_len_pred.
  rewrite (nth_indep _ d (drop_value (nth 0%nat counts 0) (nth (0 + 1) counts 0)))
    by (rewrite length_map, length_seq; lia).
  rewrite (map_nth (fun i => drop_value (nth i counts 0) (nth (i + 1) counts 0))
             (seq 0 (List.length counts - 1)) 0%nat j).
  rewrite seq_nth by lia. reflexivity.
Qed.

(** The frame returned for a frame of events that is not empty. *)
Lemma funnel_analysis_rows stages labels (df : DataFrame) time_filter :
  empty df = false ->
  List.length labels = List.length stages ->
  (1 <= List.length stages)%nat ->
  generate_funnel_analysis_in stages labels df time_filter =
  Ok (map (funnel_row_at labels (stage_counts stages (filtered df time_filter))
             (total_sessions_of (filtered df time_filter)))
          (seq 0 (List.length stages))).
Proof.
  intros Hne Hlab Hn. unfold generate_funnel_analysis_in.
  rewrite Hne.
  fold (filtered df time_filter).
  set (fdf := filtered df time_filter).
  fold (total_sessions_of fdf). fold (stage_counts stages fdf).
  set (u := total_sessions_of fdf). set (counts := stage_counts stages fdf).
  assert (Hc : List.length counts = List.length stages)
    by (unfold counts, stage_counts; apply length_map).
  rewrite (mapM_total (conversion_rate u) (conversion_value u))
    by (intros; apply conversion_rate_value).
  simpl. rewrite drop_rates_value. simpl.
  rewrite (funnel_frame_rows (List.length stages));
    rewrite ?length_map; simpl; rewrite ?length_map, ?drop_values_length;
    try lia.
  f_equal. apply map_ext_in. intros i Hi. apply in_seq in Hi.
  unfold funnel_row_at. f_equal.
  - rewrite (nth_indep _ NA (pct (conversion_value u 0)))
      by (rewrite !length_map; lia).
    rewrite (map_nth pct), (map_nth (conversion_value u)). reflexivity.
  - destruct i as [|j]; [reflexivity|].
    rewrite (nth_indep _ NA (pct (Finite 0)))
      by (rewrite length_map, drop_values_length; lia).
    rewrite (map_nth pct), drop_values_nth by lia.
    now rewrite Nat.add_1_r.
Qed.

Lemma funnel_analysis_nth stages labels (df : DataFrame) time_filter i :
  empty df = false ->
  List.length labels = List.length stages ->
  (i < List.length stages)%nat ->
  exists rows,
    generate_funnel_analysis_in stages labels df time_filter = Ok rows /\
    List.length rows = List.length stages /\
    nth_error rows i =
    Some (funnel_row_at labels (stage_counts stages (filtered df time_filter))
            (total_sessions_of (filtered df time_filter)) i).
Proof.
  intros Hne Hlab Hi. eexists. split; [|split].
  - apply funnel_analysis_rows; auto; lia.
  - now rewrite length_map, length_seq.
  - rewrite nth_error_map, nth_error_nth' with (d := 0%nat)
      by (rewrite length_seq; lia).
    rewrite seq_nth by lia. reflexivity.
Qed.

End FunnelFrame.

(** ** Shape of the funnel result *)

Section FunnelShape.

Lemma nth_error_map_seq {A : Type} (f : nat -> A) (n j : nat) (r : A) :
  nth_error (map f (seq 0 n)) j = Some r <-> (j < n)%nat /\ r = f j.
Proof.
  rewrite nth_error_map.
  destruct (Nat.lt_ge_cases j n) as [Hj | Hj].
  - rewrite nth_error_nth' with (d := 0%nat) by (rewrite length_seq; lia).
    rewrite seq_nth by lia. simpl. split.
    + intros [= <-]; auto.
    + intros [_ ->]; auto.
  - assert (H : nth_error (seq 0 n) j = None)
      by (apply nth_error_None; rewrite length_seq; lia).
    rewrite H. simpl. split; [discriminate | lia].
Qed.

(** Every call ends in one of three ways: the guard on an empty frame, the
    frame of the stage rows, or the failure of [pd.DataFrame] on columns of
    unequal length. *)
Lemma funnel_analysis_cases stages labels (df : DataFrame) time_filter :
  (df = [] /\
   generate_funnel_analysis_in stages labels df time_filter = Ok []) \/
  (empty df = false /\ List.length labels = List.length stages /\
   (1 <= List.length stages)%nat /\
   generate_funnel_analysis_in stages labels df time_filter =
   Ok (map (funnel_row_at labels (stage_counts stages (filtered df time_filter))
              (total_sessions_of (filtered df time_filter)))
           (seq 0 (List.length stages)))) \/
  generate_funnel_analysis_in stages labels df time_filter = Raise ValueError.
Proof.
  destruct df as [|e df]; [left; split; reflexivity|]. right.
  destruct (Nat.eq_dec (List.length labels) (List.length stages)) as [Heq | Hne].
  - destruct stages as [|st stages].
    + right. destruct labels; [reflexivity | discriminate].
    + left. repeat split; auto; [simpl; lia|].
      apply funnel_analysis_rows; auto. simpl; lia.
  - right. unfold generate_funnel_analysis_in. simpl empty. cbv iota.
    rewrite (mapM_total (conversion_rate _) (conversion_value _))
      by (intros; apply conversion_rate_value).
    simpl. rewrite drop_rates_value. simpl.
    apply funnel_frame_mismatch. now rewrite length_map.
Qed.

Lemma stage_counts_nil stages (i : nat) : nth i (stage_counts stages []) 0 = 0.
Proof.
  revert i. induction stages as [|[p a] stages IH]; intros [|i]; simpl; auto.
Qed.

Lemma stage_counts_bounds stages (df : DataFrame) (i : nat) :
  0 <= nth i (stage_counts stages df) 0 <= total_sessions_of df.
Proof.
  destruct (Nat.lt_ge_cases i (List.length (stage_counts stages df))) as [Hi | Hi].
  - pose proof (nth_In _ 0 Hi) as Hin. unfold stage_counts in Hin at 2.
    apply in_map_iff in Hin as (st & <- & _). apply stage_sessions_le.
  - rewrite nth_overflow by lia. split; [lia | apply nunique_nonneg].
Qed.

(** The events kept by a time window, and what the aggregation does with
    them. *)
Lemma filtered_In (df : DataFrame) (start_date end_date : Z) (e : Event) :
  In e (filtered df (Some (start_date, end_date))) <->
  In e df /\ start_date <= timestamp e <= end_date.
Proof.
  unfold filtered, apply_time_filter. rewrite filter_In.
  rewrite andb_true_iff, !Z.leb_le. tauto.
Qed.

End FunnelShape.

(** ** Rational quotients *)

Section Quotients.

Local Open Scope Q_scope.

Lemma Qdiv_int_spec (a b : Z) :
  b <> 0%Z -> Qdiv_int a b * inject_Z b == inject_Z a.
Proof.
  intros Hb. unfold Qdiv_int. field.
  intros H. apply Hb. unfold Qeq in H; simpl in H. lia.
Qed.

Lemma inject_Z_pos (b : Z) : (0 < b)%Z -> 0 < inject_Z b.
Proof. intros H. unfold Qlt; simpl. lia. Qed.

Lemma Qdiv_int_nonneg (a b : Z) :
  (0 < b)%Z -> (0 <= a)%Z -> 0 <= Qdiv_int a b.
Proof.
  intros Hb Ha. unfold Qdiv_int.
  apply Qle_shift_div_l; [now apply inject_Z_pos|].
  rewrite Qmult_0_l. unfold Qle; simpl. lia.
Qed.

Lemma Qdiv_int_le_1 (a b : Z) :
  (0 < b)%Z -> (a <= b)%Z -> Qdiv_int a b <= 1.
Proof.
  intros Hb Ha. unfold Qdiv_int.
  apply Qle_shift_div_r; [now apply inject_Z_pos|].
  rewrite Qmult_1_l. unfold Qle; simpl. lia.
Qed.

Lemma Qdiv_int_neg (a b : Z) :
  (0 < b)%Z -> (a < 0)%Z -> Qdiv_int a b < 0.
Proof.
  intros Hb Ha. unfold Qdiv_int.
  apply Qlt_shift_div_r; [now apply inject_Z_pos|].
  rewrite Qmult_0_l. unfold Qlt; simpl. lia.
Qed.

End Quotients.

(** ** Bounds on the rates *)

Section RateBounds.

Lemma conversion_value_bounds (u c : Z) :
  0 <= c <= u ->
  exists q, conversion_value u c = Finite q /\ (0 <= q <= 1)%Q.
Proof.
  intros Hc. unfold conversion_value.
  destruct (0 <? u) eqn:Hu.
  - apply Z.ltb_lt in Hu. eexists; split; [reflexivity|]. split.
    + apply Qdiv_int_nonneg; lia.
    + apply Qdiv_int_le_1; lia.
  - exists 0%Q. split; [reflexivity|]. split; [apply Qle_refl | discriminate].
Qed.

Lemma drop_value_bounds (ci cn : Z) :
  0 <= cn ->
  exists q, drop_value ci cn = Finite q /\ (q <= 1)%Q /\
            (cn <= ci -> (0 <= q)%Q) /\
            (0 < ci < cn -> (q < 0)%Q).
Proof.
  intros Hn. unfold drop_value.
  destruct (0 <? ci) eqn:Hi.
  - apply Z.ltb_lt in Hi. eexists; split; [reflexivity|]. repeat split.
    + apply Qdiv_int_le_1; lia.
    + intros H. apply Qdiv_int_nonneg; lia.
    + intros H. apply Qdiv_int_neg; lia.
  - apply Z.ltb_ge in Hi. exists 0%Q. split; [reflexivity|]. repeat split.
    + discriminate.
    + intros _. apply Qle_refl.
    + lia.
Qed.

Lemma empty_false_iff {A : Type} (l : list A) : empty l = false <-> l <> [].
Proof. destruct l; simpl; split; congruence. Qed.

End RateBounds.

(** ** The funnel aggregation: claims *)

(** C1, refuted as stated: on an empty frame of events the guard of
    [generate_funnel_analysis] returns a frame without rows, not one row per
    stage. *)
Lemma C1_empty_events_give_no_rows :
  generate_funnel_analysis [] None = Ok [] /\
  ~ (exists rows, generate_funnel_analysis [] None = Ok rows /\
                  List.length rows = List.length FUNNEL_STAGES).
Proof.
  split; [reflexivity|].
  intros (rows & H & Hlen). cbv in H. injection H as <-. discriminate.
Qed.

(** C1, as amended.  For a stage list of length at least 1 (with one label
    per stage) the aggregation raises no error.  On a frame without events
    it returns a frame without rows.  On any other frame it returns exactly
    one row per stage; when the time window leaves no event, every row has
    session count 0, conversion rate 0, and drop rate 0 past the first row. *)
Theorem C1_funnel_row_count stages labels (df : DataFrame) time_filter :
  List.length labels = List.length stages ->
  (1 <= List.length stages)%nat ->
  exists rows,
    generate_funnel_analysis_in stages labels df time_filter = Ok rows /\
    (df = [] -> rows = []) /\
    (df <> [] ->
     List.length rows = List.length stages /\
     (filtered df time_filter = [] ->
      forall i row, nth_error rows i = Some row ->
        Sessions row = 0 /\
        Conversion_Rate_from_Start row = pct (Finite 0) /\
        Drop_Rate_to_Next row =
          match i with O => NA | S _ => pct (Finite 0) end)).
Proof.
  intros Hlab Hn.
  destruct df as [|e df].
  - exists []. split; [reflexivity|].
    split; [intros _; reflexivity | intros H; now elim H].
  - eexists. split; [apply funnel_analysis_rows; auto|].
    split; [discriminate|]. intros _. split.
    + now rewrite length_map, length_seq.
    + intros Hf i row Hrow. rewrite Hf in Hrow.
      apply nth_error_map_seq in Hrow as [Hi ->].
      unfold funnel_row_at; simpl.
      rewrite stage_counts_nil. repeat split.
      destruct i as [|j]; [reflexivity|].
      now rewrite stage_counts_nil.
Qed.

Lemma C1_funnel_row_count_witness :
  exists rows,
    generate_funnel_analysis revisit_df (Some (100, 120)) = Ok rows /\
    (revisit_df = [] -> rows = []) /\
    (revisit_df <> [] ->
     List.length rows = List.length FUNNEL_STAGES /\
     (filtered revisit_df (Some (100, 120)) = [] ->
      forall i row, nth_error rows i = Some row ->
        Sessions row = 0 /\
        Conversion_Rate_from_Start row = pct (Finite 0) /\
        Drop_Rate_to_Next row =
          match i with O => NA | S _ => pct (Finite 0) end)).
Proof.
  apply (C1_funnel_row_count FUNNEL_STAGES FUNNEL_LABELS revisit_df
           (Some (100, 120))).
  - reflexivity.
  - simpl; lia.
Defined.

(** C2, refuted as stated: with one session on the homepage and two on the
    category page, the first row carries 'N/A' instead of the drop rate from
    the first stage to the second; that rate, (1 - 2) / 1, stands on the
    second row; and the last row carries a rate, not 'N/A'. *)
Lemma C2_drop_rate_on_next_row :
  exists r0 r1 r2 r3 r4 r5 r6 r7,
    generate_funnel_analysis revisit_df None =
      Ok [r0; r1; r2; r3; r4; r5; r6; r7] /\
    Sessions r0 = 1 /\ Sessions r1 = 2 /\
    drop_value (Sessions r0) (Sessions r1) = Finite (-1 # 1) /\
    Drop_Rate_to_Next r0 = NA /\
    Drop_Rate_to_Next r1 = pct (Finite (-1 # 1)) /\
    Drop_Rate_to_Next r7 = pct (Finite 0) /\
    Drop_Rate_to_Next r7 <> NA.
Proof.
  do 8 eexists. split; [vm_compute; reflexivity|].
  repeat split. discriminate.
Qed.

(** C2, as amended.  The first row of the funnel result carries the 'not
    applicable' placeholder ("no drop-off for first stage"), and every later
    row carries the drop rate of the transition into its stage: for adjacent
    rows [rj], [rk] the row [rk] has
    [(Sessions rj - Sessions rk) / Sessions rj], 0 when [Sessions rj] is 0,
    and not the placeholder. *)
Theorem C2_drop_rate_of_previous_stage stages labels (df : DataFrame) time_filter :
  df <> [] ->
  List.length labels = List.length stages ->
  (1 <= List.length stages)%nat ->
  exists rows,
    generate_funnel_analysis_in stages labels df time_filter = Ok rows /\
    List.length rows = List.length stages /\
    (exists r0, nth_error rows 0 = Some r0 /\ Drop_Rate_to_Next r0 = NA) /\
    (forall j rj rk,
       nth_error rows j = Some rj -> nth_error rows (S j) = Some rk ->
       Drop_Rate_to_Next rk = pct (drop_value (Sessions rj) (Sessions rk)) /\
       Drop_Rate_to_Next rk <> NA).
Proof.
  intros Hdf Hlab Hn. apply empty_false_iff in Hdf.
  eexists. split; [apply funnel_analysis_rows; auto|].
  split; [now rewrite length_map, length_seq|]. split.
  - eexists. split; [apply nth_error_map_seq; split; [lia | reflexivity]|].
    reflexivity.
  - intros j rj rk Hj Hk.
    apply nth_error_map_seq in Hj as [_ ->].
    apply nth_error_map_seq in Hk as [_ ->].
    simpl. split; [reflexivity | discriminate].
Qed.

Lemma C2_drop_rate_of_previous_stage_witness :
  exists rows,
    generate_funnel_analysis revisit_df None = Ok rows /\
    List.length rows = List.length FUNNEL_STAGES /\
    (exists r0, nth_error rows 0 = Some r0 /\ Drop_Rate_to_Next r0 = NA) /\
    (forall j rj rk,
       nth_error rows j = Some rj -> nth_error rows (S j) = Some rk ->
       Drop_Rate_to_Next rk = pct (drop_value (Sessions rj) (Sessions rk)) /\
       Drop_Rate_to_Next rk <> NA).
Proof.
  apply (C2_drop_rate_of_previous_stage FUNNEL_STAGES FUNNEL_LABELS revisit_df None).
  - discriminate.
  - reflexivity.
  - simpl; lia.
Defined.

Lemma page_action_is_true (p a : string) (e : Event) :
  page_action_is p a e = true <-> page e = p /\ action e = a.
Proof.
  unfold page_action_is. now rewrite andb_true_iff, !String.eqb_eq.
Qed.

Lemma matched_sessions_In (p a : string) (df : DataFrame) (s : string) :
  In s (unique (map session_id (filter (page_action_is p a) df))) <->
  exists e, In e df /\ session_id e = s /\ page e = p /\ action e = a.
Proof.
  rewrite unique_In, in_map_iff. split.
  - intros (e & Hs & He). apply filter_In in He as [He Hm].
    apply page_action_is_true in Hm. exists e; tauto.
  - intros (e & He & Hs & Hp & Ha). exists e. split; [exact Hs|].
    apply filter_In. split; [exact He|]. now apply page_action_is_true.
Qed.

Lemma all_sessions_In (df : DataFrame) (s : string) :
  In s (unique (map session_id df)) <-> exists e, In e df /\ session_id e = s.
Proof.
  rewrite unique_In, in_map_iff. split; intros (e & H1 & H2); exists e; tauto.
Qed.

(** C3, refuted as stated: on a frame without events the aggregation
    returns no row, so no stage has a session count or a conversion rate. *)
Lemma C3_empty_events_have_no_stage_row :
  generate_funnel_analysis [] None = Ok [] /\
  ~ (exists rows i row,
       generate_funnel_analysis [] None = Ok rows /\
       nth_error rows i = Some row).
Proof.
  split; [reflexivity|].
  intros (rows & i & row & H & Hrow). cbv in H. injection H as <-.
  destruct i; discriminate.
Qed.

(** C3, as amended.  For every frame of events that is not empty and every
    stage [(p, a)], the stage's row has as session count the number of
    distinct session ids with at least one event (of the filtered frame)
    whose page is [p] and whose action is [a], wherever that event stands,
    and as conversion rate that count divided by the number of distinct
    session ids of the filtered frame, 0 when there is none. *)
Theorem C3_stage_count_is_presence stages labels (df : DataFrame) time_filter
    (i : nat) (p a : string) :
  df <> [] ->
  List.length labels = List.length stages ->
  nth_error stages i = Some (p, a) ->
  exists rows row matched every,
    generate_funnel_analysis_in stages labels df time_filter = Ok rows /\
    nth_error rows i = Some row /\
    NoDup matched /\
    (forall s, In s matched <->
       exists e, In e (filtered df time_filter) /\ session_id e = s /\
                 page e = p /\ action e = a) /\
    Sessions row = len matched /\
    NoDup every /\
    (forall s, In s every <->
       exists e, In e (filtered df time_filter) /\ session_id e = s) /\
    Conversion_Rate_from_Start row =
      pct (if len every =? 0 then Finite 0
           else Finite (Qdiv_int (len matched) (len every))).
Proof.
  intros Hdf Hlab Hst. apply empty_false_iff in Hdf.
  assert (Hi : (i < List.length stages)%nat)
    by (apply nth_error_Some; congruence).
  destruct (funnel_analysis_nth stages labels df time_filter i Hdf Hlab Hi)
    as (rows & Hrows & _ & Hrow).
  set (fdf := filtered df time_filter) in *.
  exists rows, (funnel_row_at labels (stage_counts stages fdf)
                  (total_sessions_of fdf) i),
    (unique (map session_id (filter (page_action_is p a) fdf))),
    (unique (map session_id fdf)).
  assert (Hc : nth i (stage_counts stages fdf) 0 = stage_sessions fdf (p, a)).
  { apply nth_error_nth. unfold stage_counts.
    now apply map_nth_error. }
  split; [exact Hrows|]. split; [exact Hrow|].
  split; [apply unique_NoDup|]. split; [apply matched_sessions_In|].
  split; [simpl; rewrite Hc; reflexivity|].
  split; [apply unique_NoDup|]. split; [apply all_sessions_In|].
  simpl. rewrite Hc. unfold conversion_value, total_sessions_of, nunique.
  simpl stage_sessions. unfold nunique.
  set (u := len (unique (map session_id fdf))).
  assert (Hu : 0 <= u) by (unfold u, len; lia).
  destruct (Z.eqb_spec u 0) as [-> | Hne]; [reflexivity|].
  destruct (Z.ltb_spec 0 u); [reflexivity | lia].
Qed.

Lemma C3_stage_count_is_presence_witness :
  exists rows row matched every,
    generate_funnel_analysis revisit_df None = Ok rows /\
    nth_error rows 1 = Some row /\
    NoDup matched /\
    (forall s, In s matched <->
       exists e, In e (filtered revisit_df None) /\ session_id e = s /\
                 page e = "category_page"%string /\
                 action e = "page_view"%string) /\
    Sessions row = len matched /\
    NoDup every /\
    (forall s, In s every <->
       exists e, In e (filtered revisit_df None) /\ session_id e = s) /\
    Conversion_Rate_from_Start row =
      pct (if len every =? 0 then Finite 0
           else Finite (Qdiv_int (len matched) (len every))).
Proof.
  apply (C3_stage_count_is_presence FUNNEL_STAGES FUNNEL_LABELS revisit_df None 1).
  - discriminate.
  - reflexivity.
  - reflexivity.
Defined.

(** C4, refuted as stated: with one session on the homepage and two on the
    category page the drop rate into the second stage is (1 - 2) / 1 = -1,
    outside [0,1]. *)
Lemma C4_negative_drop_rate :
  exists rows r1,
    generate_funnel_analysis revisit_df None = Ok rows /\
    nth_error rows 1 = Some r1 /\
    Drop_Rate_to_Next r1 = pct (Finite (-1 # 1)) /\
    ~ (0 <= -1 # 1 <= 1)%Q.
Proof.
  eexists. eexists. split; [vm_compute; reflexivity|].
  split; [reflexivity|]. split; [reflexivity|].
  intros [H _]. now apply H.
Qed.

(** C4, as amended.  Every conversion rate of the funnel result is a finite
    value in [0,1].  Every drop rate is a finite value that is at most 1; it
    is at least 0 when the stage's count does not exceed the count of the
    stage before it, and negative when it does (counts are not clamped). *)
Theorem C4_rate_bounds stages labels (df : DataFrame) time_filter rows :
  generate_funnel_analysis_in stages labels df time_filter = Ok rows ->
  (forall row, In row rows ->
     exists q, Conversion_Rate_from_Start row = pct (Finite q) /\
               (0 <= q <= 1)%Q) /\
  (forall row, In row rows ->
     Drop_Rate_to_Next row = NA \/
     exists q, Drop_Rate_to_Next row = pct (Finite q) /\ (q <= 1)%Q) /\
  (forall j rj rk,
     nth_error rows j = Some rj -> nth_error rows (S j) = Some rk ->
     exists q, Drop_Rate_to_Next rk = pct (Finite q) /\
               (Sessions rk <= Sessions rj -> (0 <= q)%Q) /\
               (0 < Sessions rj < Sessions rk -> (q < 0)%Q)).
Proof.
  intros Hrows.
  destruct (funnel_analysis_cases stages labels df time_filter)
    as [[_ H] | [(_ & _ & _ & H) | H]]; rewrite H in Hrows;
    [injection Hrows as <- | injection Hrows as <- | discriminate].
  - split; [intros row [] | split; [intros row [] |]].
    intros j rj rk Hj. destruct j; discriminate.
  - set (fdf := filtered df time_filter).
    pose proof (stage_counts_bounds stages fdf) as Hb.
    split; [|split].
    + intros row Hin. apply in_map_iff in Hin as (i & <- & _). simpl.
      destruct (conversion_value_bounds (total_sessions_of fdf)
                  (nth i (stage_counts stages fdf) 0) (Hb i)) as (q & -> & Hq).
      now exists q.
    + intros row Hin. apply in_map_iff in Hin as (i & <- & _). simpl.
      destruct i as [|j]; [now left | right].
      destruct (drop_value_bounds (nth j (stage_counts stages fdf) 0)
                  (nth (S j) (stage_counts stages fdf) 0))
        as (q & -> & Hq & _); [apply Hb|].
      now exists q.
    + intros j rj rk Hj Hk.
      apply nth_error_map_seq in Hj as [_ ->].
      apply nth_error_map_seq in Hk as [_ ->]. simpl.
      destruct (drop_value_bounds (nth j (stage_counts stages fdf) 0)
                  (nth (S j) (stage_counts stages fdf) 0))
        as (q & -> & _ & Hq1 & Hq2); [apply Hb|].
      now exists q.
Qed.

Lemma C4_rate_bounds_witness :
  exists rows,
    generate_funnel_analysis revisit_df None = Ok rows /\
    (forall row, In row rows ->
       exists q, Conversion_Rate_from_Start row = pct (Finite q) /\
                 (0 <= q <= 1)%Q) /\
    (forall row, In row rows ->
       Drop_Rate_to_Next row = NA \/
       exists q, Drop_Rate_to_Next row = pct (Finite q) /\ (q <= 1)%Q) /\
    (forall j rj rk,
       nth_error rows j = Some rj -> nth_error rows (S j) = Some rk ->
       exists q, Drop_Rate_to_Next rk = pct (Finite q) /\
                 (Sessions rk <= Sessions rj -> (0 <= q)%Q) /\
                 (0 < Sessions rj < Sessions rk -> (q < 0)%Q)).
Proof.
  eexists. split; [vm_compute; reflexivity|].
  apply (C4_rate_bounds FUNNEL_STAGES FUNNEL_LABELS revisit_df None).
  vm_compute; reflexivity.
Defined.

(** C7, refuted as stated: under the window (10, 20) an event stamped 20,
    the end of the window, is kept and counted. *)
Lemma C7_end_instant_is_kept :
  exists e rows r0,
    In e boundary_df /\ timestamp e = 20 /\ ~ (10 <= timestamp e < 20) /\
    In e (filtered boundary_df (Some (10, 20))) /\
    generate_funnel_analysis boundary_df (Some (10, 20)) = Ok rows /\
    nth_error rows 0 = Some r0 /\ Sessions r0 = 1.
Proof.
  eexists. eexists. eexists.
  split; [left; reflexivity|]. split; [reflexivity|].
  split; [simpl; lia|]. split; [left; reflexivity|].
  split; [vm_compute; reflexivity|]. split; reflexivity.
Qed.

(** C7, as amended.  Under a time window (start, end) an event is kept for
    aggregation if and only if its timestamp lies in the closed interval
    [start, end]: both bounds are included.  The aggregation under the window
    is the aggregation of the kept events. *)
Theorem C7_time_window_closed (df : DataFrame) (start_date end_date : Z) :
  (forall e, In e (filtered df (Some (start_date, end_date))) <->
             In e df /\ start_date <= timestamp e <= end_date) /\
  (forall stages labels,
     filtered df (Some (start_date, end_date)) <> [] ->
     generate_funnel_analysis_in stages labels df (Some (start_date, end_date)) =
     generate_funnel_analysis_in stages labels
       (filtered df (Some (start_date, end_date))) None).
Proof.
  split; [intros e; apply filtered_In|].
  intros stages labels Hne.
  unfold generate_funnel_analysis_in.
  fold (filtered df (Some (start_date, end_date))).
  destruct df as [|x df]; [now elim Hne|].
  destruct (filtered (x :: df) (Some (start_date, end_date))) as [|y fdf] eqn:Hf;
    [now elim Hne|].
  reflexivity.
Qed.

Lemma C7_time_window_closed_witness :
  (forall e, In e (filtered boundary_df (Some (20, 20))) <->
             In e boundary_df /\ 20 <= timestamp e <= 20) /\
  generate_funnel_analysis boundary_df (Some (20, 20)) =
  generate_funnel_analysis (filtered boundary_df (Some (20, 20))) None.
Proof.
  destruct (C7_time_window_closed boundary_df 20 20) as [Hin Hagg].
  split; [exact Hin|].
  apply (Hagg FUNNEL_STAGES FUNNEL_LABELS). discriminate.
Defined.

(** ** Sorting by drop rate *)

Section KeyOrder.

Lemma key_ge_total (a b : pyfloat) : key_ge a b = false -> key_ge b a = true.
Proof.
  destruct a as [x| | |], b as [y| | |]; simpl; try congruence.
  intros H. apply Qle_bool_iff.
  destruct (Qlt_le_dec x y) as [Hlt | Hle].
  - now apply Qlt_le_weak.
  - apply Qle_bool_iff in Hle. congruence.
Qed.

Lemma key_ge_trans (a b c : pyfloat) :
  key_ge a b = true -> key_ge b c = true -> key_ge a c = true.
Proof.
  destruct a as [x| | |], b as [y| | |], c as [z| | |]; simpl;
    try congruence.
  rewrite !Qle_bool_iff. intros H1 H2. now apply Qle_trans with y.
Qed.

Lemma drop_ge_trans (x y z : BottleneckRow) :
  drop_ge x y -> drop_ge y z -> drop_ge x z.
Proof. unfold drop_ge. apply key_ge_trans. Qed.

End KeyOrder.

Section InsertionSort.

Variable before : BottleneckRow -> BottleneckRow -> bool.
Hypothesis before_true : forall x y, before x y = true -> drop_ge x y.
Hypothesis before_false : forall x y, before x y = false -> drop_ge y x.

Lemma insert_row_perm (x : BottleneckRow) (l : list BottleneckRow) :
  Permutation (x :: l) (insert_row before x l).
Proof.
  induction l as [|y l IH]; simpl; [reflexivity|].
  destruct (before x y); [reflexivity|].
  rewrite perm_swap. now constructor.
Qed.

Lemma insertion_sort_perm (l : list BottleneckRow) :
  Permutation l (insertion_sort before l).
Proof.
  induction l as [|x l IH]; simpl; [constructor|].
  rewrite <- insert_row_perm. now constructor.
Qed.

Lemma insert_row_sorted (x : BottleneckRow) (l : list BottleneckRow) :
  StronglySorted drop_ge l -> StronglySorted drop_ge (insert_row before x l).
Proof.
  induction 1 as [|y l Hs IH Hy]; simpl.
  - repeat constructor.
  - destruct (before x y) eqn:Hb.
    + constructor; [now constructor|].
      constructor; [now apply before_true|].
      apply Forall_forall. intros z Hz.
      apply drop_ge_trans with y; [now apply before_true|].
      rewrite Forall_forall in Hy. now apply Hy.
    + constructor; [exact IH|].
      apply Forall_forall. intros z Hz.
      apply (Permutation_in _ (Permutation_sym (insert_row_perm x l))) in Hz.
      destruct Hz as [<- | Hz]; [now apply before_false|].
      rewrite Forall_forall in Hy. now apply Hy.
Qed.

Lemma insertion_sort_sorted (l : list BottleneckRow) :
  StronglySorted drop_ge (insertion_sort before l).
Proof.
  induction l as [|x l IH]; simpl; [constructor|].
  now apply insert_row_sorted.
Qed.

End InsertionSort.

Lemma before_stable_true x y : before_stable x y = true -> drop_ge x y.
Proof. trivial. Qed.

Lemma before_stable_false x y : before_stable x y = false -> drop_ge y x.
Proof. apply key_ge_total. Qed.

Lemma before_strict_true x y : before_strict x y = true -> drop_ge x y.
Proof.
  unfold before_strict. intros H. apply negb_true_iff in H.
  now apply key_ge_total.
Qed.

Lemma before_strict_false x y : before_strict x y = false -> drop_ge y x.
Proof. unfold before_strict. intros H. now apply negb_false_iff in H. Qed.

(** A stable sort: what [kind='stable'] would give. *)
Definition stable_kind : SortValues :=
  {| sort_values_desc := insertion_sort before_stable;
     sort_values_perm := insertion_sort_perm before_stable;
     sort_values_sorted :=
       insertion_sort_sorted before_stable before_stable_true
         before_stable_false |}.

(** A sort that meets the same contract and is not stable. *)
Definition tie_swapping_kind : SortValues :=
  {| sort_values_desc := insertion_sort before_strict;
     sort_values_perm := insertion_sort_perm before_strict;
     sort_values_sorted :=
       insertion_sort_sorted before_strict before_strict_true
         before_strict_false |}.

(** ** The bottleneck analysis *)

Section Bottleneck.

Context {kind : SortValues}.

Lemma transition_drop_rate_finite (cur lost : Z) :
  exists q, transition_drop_rate cur lost = Finite q /\
            (cur <= 0 -> q = 0%Q) /\
            (0 < cur -> q = Qdiv_int lost cur).
Proof.
  unfold transition_drop_rate, np_truediv.
  destruct (Z.ltb_spec 0 cur) as [Hc | Hc].
  - destruct (Z.eqb_spec cur 0); [lia|].
    eexists; split; [reflexivity|]. split; [lia | reflexivity].
  - exists 0%Q. split; [reflexivity|]. split; [reflexivity | lia].
Qed.

Lemma bottleneck_row_value labels funnel_df (i : nat) :
  (i + 1 < List.length funnel_df)%nat -> (i + 1 < List.length labels)%nat ->
  bottleneck_row labels funnel_df i = Ok (transition_row labels funnel_df i).
Proof.
  intros Hf Hl. unfold bottleneck_row, transition_row.
  rewrite (getitem_nth funnel_df i (mkFunnelRow "" 0 NA NA)) by lia.
  rewrite (getitem_nth funnel_df (i + 1) (mkFunnelRow "" 0 NA NA)) by lia.
  rewrite (getitem_nth labels i ""%string) by lia.
  rewrite (getitem_nth labels (i + 1) ""%string) by lia.
  reflexivity.
Qed.

Lemma bottleneck_row_out labels funnel_df (i : nat) :
  (List.length funnel_df <= i + 1)%nat ->
  bottleneck_row labels funnel_df i = Raise IndexError.
Proof.
  intros Hf. unfold bottleneck_row.
  destruct (Nat.lt_ge_cases i (List.length funnel_df)) as [Hi | Hi].
  - rewrite (getitem_nth funnel_df i (mkFunnelRow "" 0 NA NA)) by lia.
    now rewrite (getitem_out funnel_df (i + 1)) by lia.
  - now rewrite (getitem_out funnel_df i) by lia.
Qed.

Lemma mapM_rows_short labels funnel_df (k n : nat) :
  (k + 1 < List.length labels)%nat ->
  (List.length funnel_df <= k + 1)%nat -> (k < n)%nat ->
  mapM (bottleneck_row labels funnel_df) (seq 0 n) = Raise IndexError.
Proof.
  intros Hl Hf Hk.
  replace n with (k + (n - k))%nat by lia.
  rewrite seq_app. simpl.
  assert (Hpre : forall m s, (s + m <= k)%nat ->
            forall rest,
              mapM (bottleneck_row labels funnel_df) (seq s m ++ rest) =
              (ys <- mapM (bottleneck_row labels funnel_df) rest ;;
               Ok (map (transition_row labels funnel_df) (seq s m) ++ ys)) \/
              mapM (bottleneck_row labels funnel_df) (seq s m ++ rest) =
              Raise IndexError).
  { induction m as [|m IH]; intros s Hs rest; simpl.
    - left. destruct (mapM _ rest); reflexivity.
    - destruct (Nat.lt_ge_cases (s + 1) (List.length funnel_df)) as [Hin | Hout].
      + rewrite bottleneck_row_value by lia. simpl.
        destruct (IH (S s) ltac:(lia) rest) as [-> | ->]; [left | now right].
        destruct (mapM _ rest); reflexivity.
      + right. now rewrite bottleneck_row_out by lia. }
  destruct (Hpre k 0%nat ltac:(lia) (seq k (n - k))) as [-> | ->];
    [|reflexivity].
  destruct (n - k)%nat as [|m] eqn:Hm; [lia|]. simpl.
  now rewrite bottleneck_row_out by lia.
Qed.

Lemma transition_rows_length labels funnel_df :
  List.length (transition_rows labels funnel_df) = (List.length labels - 1)%nat.
Proof.
  unfold transition_rows. rewrite length_map, range_length. unfold len. lia.
Qed.

Lemma sort_values_rows (rows : list BottleneckRow) :
  rows <> [] -> sort_values rows = Ok (sort_values_desc rows).
Proof. destruct rows; [congruence | reflexivity]. Qed.

(** The rows found when the frame has a row for every label, of which there
    are at least two. *)
Lemma bottleneck_analysis_rows labels funnel_df :
  funnel_df <> [] ->
  (List.length labels <= List.length funnel_df)%nat ->
  (2 <= List.length labels)%nat ->
  generate_bottleneck_analysis_in labels funnel_df =
  Ok (sort_values_desc (transition_rows labels funnel_df)).
Proof.
  intros Hne Hlen Htwo. apply empty_false_iff in Hne.
  unfold generate_bottleneck_analysis_in. rewrite Hne.
  rewrite (mapM_total _ (transition_row labels funnel_df)).
  - simpl. apply sort_values_rows. intros Hnil.
    apply (f_equal (@List.length _)) in Hnil.
    fold (transition_rows labels funnel_df) in Hnil.
    rewrite transition_rows_length in Hnil. simpl in Hnil. lia.
  - intros i Hi. apply range_In in Hi. unfold len in Hi.
    apply bottleneck_row_value; lia.
Qed.

(** A frame with fewer rows than labels is indexed out of bounds. *)
Lemma bottleneck_analysis_short labels funnel_df :
  funnel_df <> [] ->
  (List.length funnel_df < List.length labels)%nat ->
  generate_bottleneck_analysis_in labels funnel_df = Raise IndexError.
Proof.
  intros Hne Hlen. pose proof Hne as Hne'. apply empty_false_iff in Hne.
  unfold generate_bottleneck_analysis_in. rewrite Hne.
  rewrite range_len_pred.
  assert (Hpos : (1 <= List.length funnel_df)%nat)
    by (destruct funnel_df; [congruence | simpl; lia]).
  rewrite (mapM_rows_short labels funnel_df (List.length funnel_df - 1));
    [reflexivity | lia | lia | lia].
Qed.

(** With fewer than two labels there is no transition, and the sort of the
    frame without columns fails. *)
Lemma bottleneck_analysis_no_transition labels funnel_df :
  funnel_df <> [] ->
  (List.length labels <= 1)%nat ->
  generate_bottleneck_analysis_in labels funnel_df = Raise KeyError.
Proof.
  intros Hne Hlen. apply empty_false_iff in Hne.
  unfold generate_bottleneck_analysis_in. rewrite Hne.
  rewrite range_len_pred.
  replace (List.length labels - 1)%nat with 0%nat by lia. reflexivity.
Qed.

(** What a successful call returned. *)
Lemma bottleneck_analysis_inv labels funnel_df rows :
  generate_bottleneck_analysis_in labels funnel_df = Ok rows ->
  (funnel_df = [] /\ rows = []) \/
  (funnel_df <> [] /\
   (2 <= List.length labels <= List.length funnel_df)%nat /\
   rows = sort_values_desc (transition_rows labels funnel_df)).
Proof.
  intros H. destruct funnel_df as [|r funnel_df].
  - left. split; [reflexivity|]. cbv in H. congruence.
  - right. split; [discriminate|].
    destruct (Nat.lt_ge_cases (List.length (r :: funnel_df)) (List.length labels))
      as [Hshort | Hlong].
    + rewrite bottleneck_analysis_short in H by (auto; discriminate).
      discriminate.
    + destruct (Nat.lt_ge_cases (List.length labels) 2) as [Hfew | Htwo].
      * rewrite bottleneck_analysis_no_transition in H
          by (try discriminate; lia).
        discriminate.
      * split; [lia|].
        rewrite bottleneck_analysis_rows in H by (auto; discriminate).
        congruence.
Qed.

End Bottleneck.


(** The order of rows with equal drop rate is not fixed by the contract of the
    sort: on eight stages of 5 sessions (every drop rate 0) the stable kind
    leaves the transitions in stage order and the other kind reverses them. *)
Lemma sort_kinds_differ_on_ties :
  let frame := frame_of_counts [5; 5; 5; 5; 5; 5; 5; 5] in
  exists stable swapped,
    @generate_bottleneck_analysis stable_kind frame = Ok stable /\
    @generate_bottleneck_analysis tie_swapping_kind frame = Ok swapped /\
    map Transition stable = map Transition (transition_rows FUNNEL_LABELS frame) /\
    map Transition swapped =
      rev (map Transition (transition_rows FUNNEL_LABELS frame)) /\
    stable <> swapped.
Proof.
  eexists. eexists. split; [vm_compute; reflexivity|].
  split; [vm_compute; reflexivity|].
  split; [reflexivity|]. split; [reflexivity|]. discriminate.
Qed.



(** The bottleneck analysis of a funnel result of the aggregation. *)
Lemma bottleneck_of_funnel_result (kind : SortValues) (df : DataFrame) time_filter :
  df <> [] ->
  exists funnel_df rows,
    generate_funnel_analysis df time_filter = Ok funnel_df /\
    List.length funnel_df = 8%nat /\
    generate_bottleneck_analysis funnel_df = Ok rows /\
    List.length rows = 7%nat.
Proof.
  intros Hdf. apply empty_false_iff in Hdf.
  eexists. eexists.
  split; [apply funnel_analysis_rows; [exact Hdf | reflexivity | simpl; lia]|].
  split; [reflexivity|].
  split; [apply bottleneck_analysis_rows; [discriminate | simpl; lia | simpl; lia]|].
  rewrite <- (Permutation_length (sort_values_perm _)).
  apply transition_rows_length.
Qed.

(** ** Severity *)

Section Severity.

Local Open Scope Q_scope.

Lemma Qltb_lt (x y : Q) : Qltb x y = true <-> x < y.
Proof.
  unfold Qltb. rewrite negb_true_iff. split.
  - intros H. apply Qnot_le_lt. intros Hle.
    apply Qle_bool_iff in Hle. congruence.
  - intros H. destruct (Qle_bool y x) eqn:Hb; [|reflexivity].
    apply Qle_bool_iff in Hb. now apply Qlt_not_le in H.
Qed.

Lemma assign_severity_finite (q : Q) :
  (assign_severity (Finite q) = High <-> 3 # 10 < q) /\
  (assign_severity (Finite q) = Medium <-> 3 # 20 < q /\ q <= 3 # 10) /\
  (assign_severity (Finite q) = Low <-> q <= 3 # 20).
Proof.
  unfold assign_severity, float_gt.
  destruct (Qltb (3 # 10) q) eqn:H30; [|destruct (Qltb (3 # 20) q) eqn:H15].
  - apply Qltb_lt in H30.
    assert (H15 : 3 # 20 < q) by (apply Qlt_trans with (3 # 10); [reflexivity | exact H30]).
    split; [tauto|]. split; split; try discriminate.
    + intros [_ H]. now apply Qlt_not_le in H30.
    + intros H. now apply Qlt_not_le in H15.
  - apply Qltb_lt in H15.
    assert (Hle : q <= 3 # 10).
    { apply Qnot_lt_le. intros H. apply Qltb_lt in H. congruence. }
    split; [split; [discriminate|]|].
    + intros H. now apply Qlt_not_le in H.
    + split; [tauto|]. split; [discriminate|].
      intros H. now apply Qlt_not_le in H15.
  - assert (Hle : q <= 3 # 20).
    { apply Qnot_lt_le. intros H. apply Qltb_lt in H. congruence. }
    split; [split; [discriminate|]|].
    + intros H. apply Qltb_lt in H. congruence.
    + split; [|tauto]. split; [discriminate|].
      intros [H _]. now apply Qlt_not_le in H.
Qed.

(** At the thresholds themselves the lower class is assigned. *)
Lemma severity_boundaries :
  assign_severity (Finite (3 # 10)) = Medium /\
  assign_severity (Finite (3 # 20)) = Low /\
  assign_severity (Finite (301 # 1000)) = High /\
  assign_severity (transition_drop_rate 10 3) = Medium /\
  assign_severity (transition_drop_rate 20 3) = Low.
Proof. repeat split. Qed.

End Severity.

(** C6.  Every row of the bottleneck analysis has a finite drop rate [q], and
    its severity is High exactly when q > 0.30, Medium exactly when
    0.15 < q <= 0.30, and Low exactly when q <= 0.15: a drop rate of exactly
    0.30 is Medium and one of exactly 0.15 is Low. *)
Theorem C6_severity_thresholds (kind : SortValues) funnel_df rows row :
  generate_bottleneck_analysis funnel_df = Ok rows ->
  In row rows ->
  exists q,
    Drop_Rate_Numeric row = Finite q /\
    Severity row = assign_severity (Finite q) /\
    (Severity row = High <-> (3 # 10 < q)%Q) /\
    (Severity row = Medium <-> (3 # 20 < q /\ q <= 3 # 10)%Q) /\
    (Severity row = Low <-> (q <= 3 # 20)%Q).
Proof.
  intros Hrows Hin. unfold generate_bottleneck_analysis in Hrows.
  apply bottleneck_analysis_inv in Hrows as [[_ ->] | (_ & _ & ->)];
    [destruct Hin|].
  apply (Permutation_in _ (Permutation_sym (sort_values_perm _))) in Hin.
  apply in_map_iff in Hin as (i & <- & _).
  unfold transition_row. cbv zeta. simpl Drop_Rate_Numeric. simpl Severity.
  match goal with
  | |- context [transition_drop_rate ?c ?l] =>
      destruct (transition_drop_rate_finite c l) as (q & -> & _)
  end.
  exists q. split; [reflexivity|]. split; [reflexivity|].
  apply assign_severity_finite.
Qed.

Lemma C6_severity_thresholds_witness :
  let frame := frame_of_counts [100; 70; 20; 17; 17; 10; 10; 10] in
  let row := transition_row FUNNEL_LABELS frame 0 in
  Drop_Rate_Numeric row = Finite (Qdiv_int 30 100) /\
  Severity row = Medium /\
  exists q,
    Drop_Rate_Numeric row = Finite q /\
    Severity row = assign_severity (Finite q) /\
    (Severity row = High <-> (3 # 10 < q)%Q) /\
    (Severity row = Medium <-> (3 # 20 < q /\ q <= 3 # 10)%Q) /\
    (Severity row = Low <-> (q <= 3 # 20)%Q).
Proof.
  intros frame row. split; [reflexivity|]. split; [reflexivity|].
  apply (C6_severity_thresholds stable_kind frame
           (@sort_values_desc stable_kind (transition_rows FUNNEL_LABELS frame))
           row).
  - reflexivity.
  - vm_compute. do 2 right. left. reflexivity.
Defined.

(** ** The segment analyzers *)

Section Segments.

Lemma segment_rate_value (total purchases : Z) :
  0 <= total ->
  segment_rate total purchases =
  Ok (if total =? 0 then Finite 0 else Finite (Qdiv_int purchases total)).
Proof.
  intros Ht. unfold segment_rate, py_truediv.
  destruct (Z.eqb_spec total 0) as [-> | Hne]; [reflexivity|].
  destruct (Z.ltb_spec 0 total); [reflexivity | lia].
Qed.

Lemma device_row_numbers (df : DataFrame) (dev : string) :
  exists row,
    device_row df dev = Ok row /\
    Device row = capitalize dev /\
    device_numbers row = segment_numbers device df dev /\
    Conversion_Rate row = pct (Conversion_Rate_Numeric row).
Proof.
  unfold device_row, segment_numbers.
  rewrite segment_rate_value by apply nunique_nonneg.
  eexists. split; [reflexivity|]. repeat split.
Qed.

Lemma traffic_row_numbers (df : DataFrame) (source : string) :
  exists row,
    traffic_row df source = Ok row /\
    Traffic_Source row = title (replace_underscore source) /\
    traffic_numbers row = segment_numbers traffic_source df source /\
    T_Conversion_Rate row = pct (T_Conversion_Rate_Numeric row).
Proof.
  unfold traffic_row, segment_numbers.
  rewrite segment_rate_value by apply nunique_nonneg.
  eexists. split; [reflexivity|]. repeat split.
Qed.

(** A loop whose every iteration succeeds returns one row per key, each
    related to its key. *)
Lemma mapM_Forall2 {A B : Type} (f : A -> result B) (R : A -> B -> Prop)
    (l : list A) :
  (forall x, exists y, f x = Ok y /\ R x y) ->
  exists ys, mapM f l = Ok ys /\ Forall2 R l ys.
Proof.
  intros Hf. induction l as [|x l (ys & Hys & HR)]; simpl.
  - exists []. split; [reflexivity | constructor].
  - destruct (Hf x) as (y & Hy & Hxy). rewrite Hy, Hys. simpl.
    exists (y :: ys). split; [reflexivity | now constructor].
Qed.

Lemma Forall2_map_eq {A B C : Type} (f : A -> C) (g : B -> C)
    (l : list A) (l' : list B) :
  Forall2 (fun x y => g y = f x) l l' -> map g l' = map f l.
Proof. induction 1; simpl; congruence. Qed.

Lemma Forall2_impl {A B : Type} (R R' : A -> B -> Prop)
    (l : list A) (l' : list B) :
  (forall x y, R x y -> R' x y) -> Forall2 R l l' -> Forall2 R' l l'.
Proof. intros HR. induction 1; constructor; auto. Qed.

Lemma device_analysis_rows (df : DataFrame) :
  exists rows,
    generate_device_analysis df = Ok rows /\
    Forall2 (device_row_of df) (unique (map device df)) rows.
Proof.
  unfold generate_device_analysis.
  destruct df as [|e df]; [exists []; split; [reflexivity | constructor]|].
  simpl empty. cbv iota. apply mapM_Forall2.
  intros dev. destruct (device_row_numbers (e :: df) dev) as (row & H & H').
  now exists row.
Qed.

Lemma traffic_analysis_rows (df : DataFrame) :
  exists rows,
    generate_traffic_analysis df = Ok rows /\
    Forall2 (traffic_row_of df) (unique (map traffic_source df)) rows.
Proof.
  unfold generate_traffic_analysis.
  destruct df as [|e df]; [exists []; split; [reflexivity | constructor]|].
  simpl empty. cbv iota. apply mapM_Forall2.
  intros src. destruct (traffic_row_numbers (e :: df) src) as (row & H & H').
  now exists row.
Qed.

Lemma filter_map_comm {A B : Type} (f : B -> bool) (g : A -> B) (l : list A) :
  filter f (map g l) = map g (filter (fun x => f (g x)) l).
Proof.
  induction l as [|x l IH]; simpl; [reflexivity|].
  destruct (f (g x)); simpl; now rewrite IH.
Qed.

(** Exchanging the two segment columns exchanges the two aggregations. *)
Lemma segment_conversion_swap (df : DataFrame) :
  segment_conversion device (map swap_segments df) =
    segment_conversion traffic_source df /\
  segment_conversion traffic_source (map swap_segments df) =
    segment_conversion device df.
Proof.
  unfold segment_conversion, segment_numbers.
  rewrite !map_map. simpl. split; apply map_ext; intros v;
    rewrite !filter_map_comm, !map_map; reflexivity.
Qed.

Lemma purchase_sessions_In (key : Event -> string) (df : DataFrame)
    (v s : string) :
  In s (unique (map session_id
          (filter is_purchase
             (filter (fun e => String.eqb (key e) v) df)))) <->
  exists e, In e df /\ session_id e = s /\ key e = v /\
            page e = "payment_page"%string /\ action e = "purchase"%string.
Proof.
  unfold is_purchase. rewrite matched_sessions_In. split.
  - intros (e & He & Hs & Hp & Ha). apply filter_In in He as [He Hk].
    apply String.eqb_eq in Hk. exists e; tauto.
  - intros (e & He & Hs & Hk & Hp & Ha). exists e.
    repeat split; auto. apply filter_In. split; [exact He|].
    now apply String.eqb_eq.
Qed.

End Segments.

(** C9, refuted as stated: a session that browses on a phone and buys on a
    desktop is attributed to 'mobile' and contains a purchase, yet the row of
    'mobile' has 0 conversions; likewise for the traffic source 'email'. *)
Lemma C9_purchase_elsewhere_not_counted :
  (exists mobile desktop,
     generate_device_analysis cross_device_df = Ok [mobile; desktop] /\
     Device mobile = "Mobile"%string /\
     Total_Sessions mobile = 1 /\ Conversions mobile = 0 /\
     converted_anywhere device cross_device_df "mobile" = 1) /\
  (exists email direct,
     generate_traffic_analysis cross_device_df = Ok [email; direct] /\
     Traffic_Source email = "Email"%string /\
     T_Sessions email = 1 /\ T_Conversions email = 0 /\
     converted_anywhere traffic_source cross_device_df "email" = 1).
Proof.
  split; eexists; eexists; (split; [vm_compute; reflexivity|]); repeat split.
Qed.

(** C9, as amended.  In both segment analyzers, the row of a partition value
    counts as conversions the distinct session ids that have a purchase event
    (page payment_page, action purchase) which itself carries that partition
    value; a purchase event of the session with another partition value does
    not count. *)
Theorem C9_conversions_within_partition (df : DataFrame) :
  (exists rows,
     generate_device_analysis df = Ok rows /\
     Forall2 (fun v row =>
       Device row = capitalize v /\
       exists buyers,
         NoDup buyers /\
         (forall s, In s buyers <->
            exists e, In e df /\ session_id e = s /\ device e = v /\
                      page e = "payment_page"%string /\
                      action e = "purchase"%string) /\
         Conversions row = len buyers)
       (unique (map device df)) rows) /\
  (exists rows,
     generate_traffic_analysis df = Ok rows /\
     Forall2 (fun v row =>
       Traffic_Source row = title (replace_underscore v) /\
       exists buyers,
         NoDup buyers /\
         (forall s, In s buyers <->
            exists e, In e df /\ session_id e = s /\ traffic_source e = v /\
                      page e = "payment_page"%string /\
                      action e = "purchase"%string) /\
         T_Conversions row = len buyers)
       (unique (map traffic_source df)) rows).
Proof.
  split.
  - destruct (device_analysis_rows df) as (rows & Hrows & Hall).
    exists rows. split; [exact Hrows|].
    revert Hall. apply Forall2_impl. intros v row (Hlabel & Hnum & _).
    split; [exact Hlabel|].
    eexists. split; [apply unique_NoDup|].
    split; [intros s; apply (purchase_sessions_In device)|].
    unfold device_numbers, segment_numbers in Hnum.
    now injection Hnum as _ -> _.
  - destruct (traffic_analysis_rows df) as (rows & Hrows & Hall).
    exists rows. split; [exact Hrows|].
    revert Hall. apply Forall2_impl. intros v row (Hlabel & Hnum & _).
    split; [exact Hlabel|].
    eexists. split; [apply unique_NoDup|].
    split; [intros s; apply (purchase_sessions_In traffic_source)|].
    unfold traffic_numbers, segment_numbers in Hnum.
    now injection Hnum as _ -> _.
Qed.

(** The numbers of a partition value, as sizes of duplicate-free lists of
    session ids. *)
Lemma segment_numbers_counts (key : Event -> string) (df : DataFrame)
    (v : string) :
  exists sessions buyers,
    NoDup sessions /\
    (forall s, In s sessions <->
       exists e, In e df /\ session_id e = s /\ key e = v) /\
    NoDup buyers /\
    (forall s, In s buyers <->
       exists e, In e df /\ session_id e = s /\ key e = v /\
                 page e = "payment_page"%string /\
                 action e = "purchase"%string) /\
    segment_numbers key df v =
      (Z.of_nat (List.length sessions), Z.of_nat (List.length buyers),
       if Z.of_nat (List.length sessions) =? 0 then Finite 0
       else Finite (Qdiv_int (Z.of_nat (List.length buyers))
                             (Z.of_nat (List.length sessions)))).
Proof.
  exists (unique (map session_id (filter (fun e => String.eqb (key e) v) df))),
         (unique (map session_id
                    (filter is_purchase
                       (filter (fun e => String.eqb (key e) v) df)))).
  split; [apply unique_NoDup|]. split.
  { intros s. rewrite unique_In, in_map_iff. split.
    - intros (e & Hs & He). apply filter_In in He as [He Hk].
      apply String.eqb_eq in Hk. now exists e.
    - intros (e & He & Hs & Hk). exists e. split; [exact Hs|].
      apply filter_In. split; [exact He | now apply String.eqb_eq]. }
  split; [apply unique_NoDup|].
  split; [intros s; apply purchase_sessions_In|].
  reflexivity.
Qed.

Lemma distinct_values (key : Event -> string) (df : DataFrame) :
  NoDup (unique (map key df)) /\
  forall v, In v (unique (map key df)) <-> exists e, In e df /\ key e = v.
Proof.
  split; [apply unique_NoDup|]. intros v. rewrite unique_In, in_map_iff.
  split; intros (e & H1 & H2); exists e; tauto.
Qed.

(** C10.  The two segment analyzers are one aggregation at two partition
    columns.  Each returns one row per distinct value of its column; the
    row's total is the number of distinct session ids among the events
    carrying the value, its conversions the number of distinct session ids
    among those same events that are purchases (page payment_page, action
    purchase), and its rate conversions divided by total, 0 when the total
    is 0.  Both are [segment_conversion] at their column; hence exchanging
    the device and traffic_source cells of every event exchanges the numeric
    outputs of the two analyzers. *)
Theorem C10_segment_analyzers_one_aggregation (df : DataFrame) :
  (exists rows values,
     generate_device_analysis df = Ok rows /\
     map device_numbers rows = segment_conversion device df /\
     NoDup values /\
     (forall v, In v values <-> exists e, In e df /\ device e = v) /\
     Forall2 (fun v row =>
       exists sessions buyers,
         NoDup sessions /\
         (forall s, In s sessions <->
            exists e, In e df /\ session_id e = s /\ device e = v) /\
         NoDup buyers /\
         (forall s, In s buyers <->
            exists e, In e df /\ session_id e = s /\ device e = v /\
                      page e = "payment_page"%string /\
                      action e = "purchase"%string) /\
         Total_Sessions row = Z.of_nat (List.length sessions) /\
         Conversions row = Z.of_nat (List.length buyers) /\
         Conversion_Rate_Numeric row =
           (if Z.of_nat (List.length sessions) =? 0 then Finite 0
            else Finite (Qdiv_int (Z.of_nat (List.length buyers))
                                  (Z.of_nat (List.length sessions)))))
       values rows) /\
  (exists rows values,
     generate_traffic_analysis df = Ok rows /\
     map traffic_numbers rows = segment_conversion traffic_source df /\
     NoDup values /\
     (forall v, In v values <-> exists e, In e df /\ traffic_source e = v) /\
     Forall2 (fun v row =>
       exists sessions buyers,
         NoDup sessions /\
         (forall s, In s sessions <->
            exists e, In e df /\ session_id e = s /\ traffic_source e = v) /\
         NoDup buyers /\
         (forall s, In s buyers <->
            exists e, In e df /\ session_id e = s /\ traffic_source e = v /\
                      page e = "payment_page"%string /\
                      action e = "purchase"%string) /\
         T_Sessions row = Z.of_nat (List.length sessions) /\
         T_Conversions row = Z.of_nat (List.length buyers) /\
         T_Conversion_Rate_Numeric row =
           (if Z.of_nat (List.length sessions) =? 0 then Finite 0
            else Finite (Qdiv_int (Z.of_nat (List.length buyers))
                                  (Z.of_nat (List.length sessions)))))
       values rows) /\
  (exists drows trows,
     generate_device_analysis (map swap_segments df) = Ok drows /\
     generate_traffic_analysis df = Ok trows /\
     map device_numbers drows = map traffic_numbers trows) /\
  (exists trows drows,
     generate_traffic_analysis (map swap_segments df) = Ok trows /\
     generate_device_analysis df = Ok drows /\
     map traffic_numbers trows = map device_numbers drows).
Proof.
  assert (Hd : forall d, exists rows,
             generate_device_analysis d = Ok rows /\
             map device_numbers rows = segment_conversion device d).
  { intros d. destruct (device_analysis_rows d) as (rows & Hrows & Hall).
    exists rows. split; [exact Hrows|].
    apply Forall2_map_eq. revert Hall. apply Forall2_impl.
    now intros v row (_ & Hnum & _). }
  assert (Ht : forall d, exists rows,
             generate_traffic_analysis d = Ok rows /\
             map traffic_numbers rows = segment_conversion traffic_source d).
  { intros d. destruct (traffic_analysis_rows d) as (rows & Hrows & Hall).
    exists rows. split; [exact Hrows|].
    apply Forall2_map_eq. revert Hall. apply Forall2_impl.
    now intros v row (_ & Hnum & _). }
  destruct (segment_conversion_swap df) as [Hswap1 Hswap2].
  split; [|split; [|split]].
  - destruct (device_analysis_rows df) as (rows & Hrows & Hall).
    exists rows, (unique (map device df)).
    split; [exact Hrows|]. split.
    { destruct (Hd df) as (rows' & Hrows' & Hnum). congruence. }
    destruct (distinct_values device df) as [Hnd Hin].
    split; [exact Hnd|]. split; [exact Hin|].
    revert Hall. apply Forall2_impl. intros v row (_ & Hnum & _).
    destruct (segment_numbers_counts device df v)
      as (sessions & buyers & H1 & H2 & H3 & H4 & Hseg).
    exists sessions, buyers. rewrite Hseg in Hnum.
    unfold device_numbers in Hnum. injection Hnum as Ht' Hc' Hr'.
    repeat split; auto; try apply H2; try apply H4.
  - destruct (traffic_analysis_rows df) as (rows & Hrows & Hall).
    exists rows, (unique (map traffic_source df)).
    split; [exact Hrows|]. split.
    { destruct (Ht df) as (rows' & Hrows' & Hnum). congruence. }
    destruct (distinct_values traffic_source df) as [Hnd Hin].
    split; [exact Hnd|]. split; [exact Hin|].
    revert Hall. apply Forall2_impl. intros v row (_ & Hnum & _).
    destruct (segment_numbers_counts traffic_source df v)
      as (sessions & buyers & H1 & H2 & H3 & H4 & Hseg).
    exists sessions, buyers. rewrite Hseg in Hnum.
    unfold traffic_numbers in Hnum. injection Hnum as Ht' Hc' Hr'.
    repeat split; auto; try apply H2; try apply H4.
  - destruct (Hd (map swap_segments df)) as (drows & Hdr & Hdn).
    destruct (Ht df) as (trows & Htr & Htn).
    exists drows, trows. repeat split; auto. congruence.
  - destruct (Ht (map swap_segments df)) as (trows & Htr & Htn).
    destruct (Hd df) as (drows & Hdr & Hdn).
    exists trows, drows. repeat split; auto. congruence.
Qed.

(** ** Zero denominators *)

Section ZeroDenominator.

Lemma conversion_rate_clamped (u c : Z) :
  exists q, conversion_rate u c = Ok (Finite q) /\
            (u = 0 -> conversion_rate u c = Ok (Finite 0)).
Proof.
  rewrite conversion_rate_value. unfold conversion_value.
  destruct (Z.ltb_spec 0 u); eexists; (split; [reflexivity|]);
    intros; [lia | reflexivity].
Qed.

Lemma drop_rate_at_clamped (counts : list Z) (i : nat) :
  ((exists q, drop_rate_at counts i = Ok (Finite q)) \/
   drop_rate_at counts i = Raise IndexError) /\
  (nth_error counts i = Some 0 -> drop_rate_at counts i = Ok (Finite 0)).
Proof.
  unfold drop_rate_at, getitem, py_truediv. split.
  - destruct (nth_error counts i) as [ci|]; simpl; [|now right].
    destruct (Z.ltb_spec 0 ci); [|left; now eexists].
    destruct (nth_error counts (i + 1)) as [cn|]; simpl; [|now right].
    destruct (Z.eqb_spec ci 0); [lia|]. left; now eexists.
  - intros ->. reflexivity.
Qed.

Lemma transition_drop_rate_clamped (cur lost : Z) :
  exists q, transition_drop_rate cur lost = Finite q /\
            (cur = 0 -> transition_drop_rate cur lost = Finite 0).
Proof.
  destruct (transition_drop_rate_finite cur lost) as (q & Hq & _).
  exists q. split; [exact Hq|]. intros ->. reflexivity.
Qed.

Lemma segment_rate_clamped (total purchases : Z) :
  exists q, segment_rate total purchases = Ok (Finite q) /\
            (total = 0 -> segment_rate total purchases = Ok (Finite 0)).
Proof.
  unfold segment_rate, py_truediv.
  destruct (Z.ltb_spec 0 total) as [Ht | Ht].
  - destruct (Z.eqb_spec total 0); [lia|].
    eexists; split; [reflexivity | lia].
  - eexists; split; [reflexivity | reflexivity].
Qed.

Lemma funnel_rates_finite stages labels (df : DataFrame) time_filter :
  generate_funnel_analysis_in stages labels df time_filter
    <> Raise ZeroDivisionError /\
  forall rows row,
    generate_funnel_analysis_in stages labels df time_filter = Ok rows ->
    In row rows ->
    (exists q, Conversion_Rate_from_Start row = pct (Finite q)) /\
    (Drop_Rate_to_Next row = NA \/
     exists q, Drop_Rate_to_Next row = pct (Finite q)) /\
    (total_sessions_of (filtered df time_filter) = 0 ->
     Conversion_Rate_from_Start row = pct (Finite 0)).
Proof.
  destruct (funnel_analysis_cases stages labels df time_filter)
    as [[_ H] | [(_ & _ & _ & H) | H]]; rewrite H;
    (split; [discriminate|]); intros rows row Hrows Hin;
    [injection Hrows as <- | injection Hrows as <- | discriminate].
  - destruct Hin.
  - apply in_map_iff in Hin as (i & <- & _). simpl. split; [|split].
    + unfold conversion_value. destruct (0 <? _); now eexists.
    + destruct i as [|j]; [now left | right].
      unfold drop_value. destruct (0 <? _); now eexists.
    + intros ->. reflexivity.
Qed.

Lemma bottleneck_rates_finite (kind : SortValues) labels funnel_df :
  generate_bottleneck_analysis_in labels funnel_df
    <> Raise ZeroDivisionError /\
  forall rows row,
    generate_bottleneck_analysis_in labels funnel_df = Ok rows ->
    In row rows ->
    exists q, Drop_Rate_Numeric row = Finite q /\
              Drop_Rate row = pct (Finite q).
Proof.
  split.
  - destruct funnel_df as [|r funnel_df]; [discriminate|].
    destruct (Nat.lt_ge_cases (List.length (r :: funnel_df)) (List.length labels)).
    + rewrite bottleneck_analysis_short by (auto; discriminate). discriminate.
    + destruct (Nat.lt_ge_cases (List.length labels) 2).
      * rewrite bottleneck_analysis_no_transition by (try discriminate; lia).
        discriminate.
      * rewrite bottleneck_analysis_rows by (auto; discriminate). discriminate.
  - intros rows row Hrows Hin.
    apply bottleneck_analysis_inv in Hrows as [[_ ->] | (_ & _ & ->)];
      [destruct Hin|].
    apply (Permutation_in _ (Permutation_sym (sort_values_perm _))) in Hin.
    apply in_map_iff in Hin as (i & <- & _).
    unfold transition_row. cbv zeta. simpl.
    match goal with
    | |- context [transition_drop_rate ?c ?l] =>
        destruct (transition_drop_rate_finite c l) as (q & -> & _)
    end.
    now exists q.
Qed.

Lemma Forall2_In_r {A B : Type} (R : A -> B -> Prop) (l : list A)
    (l' : list B) (y : B) :
  Forall2 R l l' -> In y l' -> exists x, In x l /\ R x y.
Proof.
  induction 1 as [|x y' l l' Hxy _ IH]; intros Hin; [destruct Hin|].
  destruct Hin as [<- | Hin].
  - exists x. split; [now left | exact Hxy].
  - destruct (IH Hin) as (x' & Hx' & HR). exists x'. split; [now right | exact HR].
Qed.

Lemma segment_numbers_finite (key : Event -> string) (df : DataFrame)
    (v : string) :
  exists q, snd (segment_numbers key df v) = Finite q.
Proof.
  unfold segment_numbers. simpl. destruct (_ =? 0); now eexists.
Qed.

End ZeroDenominator.

(** C8.  No rate computation raises on a zero denominator or yields a
    non-finite value: the conversion rate, the two drop rates and the segment
    rate are each a finite value, which is 0 when the denominator is 0.
    Hence the funnel aggregation and the bottleneck analysis never end in a
    division error and the segment analyzers never fail, and every rate in
    their rows is finite. *)
Theorem C8_zero_denominator_clamped :
  (forall u c, exists q, conversion_rate u c = Ok (Finite q) /\
                         (u = 0 -> conversion_rate u c = Ok (Finite 0))) /\
  (forall counts i,
     ((exists q, drop_rate_at counts i = Ok (Finite q)) \/
      drop_rate_at counts i = Raise IndexError) /\
     (nth_error counts i = Some 0 -> drop_rate_at counts i = Ok (Finite 0))) /\
  (forall cur lost, exists q,
     transition_drop_rate cur lost = Finite q /\
     (cur = 0 -> transition_drop_rate cur lost = Finite 0)) /\
  (forall total purchases, exists q,
     segment_rate total purchases = Ok (Finite q) /\
     (total = 0 -> segment_rate total purchases = Ok (Finite 0))) /\
  (forall stages labels (df : DataFrame) time_filter,
     generate_funnel_analysis_in stages labels df time_filter
       <> Raise ZeroDivisionError /\
     forall rows row,
       generate_funnel_analysis_in stages labels df time_filter = Ok rows ->
       In row rows ->
       (exists q, Conversion_Rate_from_Start row = pct (Finite q)) /\
       (Drop_Rate_to_Next row = NA \/
        exists q, Drop_Rate_to_Next row = pct (Finite q)) /\
       (total_sessions_of (filtered df time_filter) = 0 ->
        Conversion_Rate_from_Start row = pct (Finite 0))) /\
  (forall (kind : SortValues) labels funnel_df,
     generate_bottleneck_analysis_in labels funnel_df
       <> Raise ZeroDivisionError /\
     forall rows row,
       generate_bottleneck_analysis_in labels funnel_df = Ok rows ->
       In row rows ->
       exists q, Drop_Rate_Numeric row = Finite q /\
                 Drop_Rate row = pct (Finite q)) /\
  (forall df : DataFrame, exists rows,
     generate_device_analysis df = Ok rows /\
     forall row, In row rows ->
       exists q, Conversion_Rate_Numeric row = Finite q /\
                 Conversion_Rate row = pct (Finite q)) /\
  (forall df : DataFrame, exists rows,
     generate_traffic_analysis df = Ok rows /\
     forall row, In row rows ->
       exists q, T_Conversion_Rate_Numeric row = Finite q /\
                 T_Conversion_Rate row = pct (Finite q)).
Proof.
  split; [exact conversion_rate_clamped|].
  split; [exact drop_rate_at_clamped|].
  split; [exact transition_drop_rate_clamped|].
  split; [exact segment_rate_clamped|].
  split; [exact funnel_rates_finite|].
  split; [exact bottleneck_rates_finite|].
  split.
  - intros df. destruct (device_analysis_rows df) as (rows & Hrows & Hall).
    exists rows. split; [exact Hrows|]. intros row Hin.
    destruct (Forall2_In_r _ _ _ _ Hall Hin) as (v & _ & _ & Hnum & Hcell).
    destruct (segment_numbers_finite device df v) as (q & Hq).
    rewrite <- Hnum in Hq. simpl in Hq.
    exists q. split; [exact Hq|]. now rewrite Hcell, Hq.
  - intros df. destruct (traffic_analysis_rows df) as (rows & Hrows & Hall).
    exists rows. split; [exact Hrows|]. intros row Hin.
    destruct (Forall2_In_r _ _ _ _ Hall Hin) as (v & _ & _ & Hnum & Hcell).
    destruct (segment_numbers_finite traffic_source df v) as (q & Hq).
    rewrite <- Hnum in Hq. simpl in Hq.
    exists q. split; [exact Hq|]. now rewrite Hcell, Hq.
Qed.

(** * Further properties of the aggregation *)

(** ** The funnel frame and its input *)

Section FunnelInput.

Lemma map_nth_seq {A : Type} (l : list A) (d : A) :
  map (fun i => nth i l d) (seq 0 (List.length l)) = l.
Proof.
  induction l as [|x l IH]; simpl; [reflexivity|].
  rewrite <- seq_shift, map_map. simpl. now rewrite IH.
Qed.

Lemma nunique_same_values (l l' : list string) :
  (forall x, In x l <-> In x l') -> nunique l = nunique l'.
Proof.
  intros H. apply Z.le_antisymm; apply nunique_incl; intros x Hx; now apply H.
Qed.

Lemma stage_sessions_incl (d d' : DataFrame) (st : string * string) :
  incl d d' -> stage_sessions d st <= stage_sessions d' st.
Proof.
  intros Hincl. destruct st as [p a]. unfold stage_sessions.
  apply nunique_incl. intros s Hs.
  apply in_map_iff in Hs as (e & <- & He).
  apply filter_In in He as [He Hm].
  apply in_map. apply filter_In. split; [now apply Hincl | exact Hm].
Qed.

Lemma stage_counts_nth_incl stages (d d' : DataFrame) (i : nat) :
  incl d d' ->
  nth i (stage_counts stages d) 0 <= nth i (stage_counts stages d') 0.
Proof.
  intros Hincl. revert i.
  induction stages as [|st stages IH]; intros [|i]; simpl; try lia.
  - now apply stage_sessions_incl.
  - apply IH.
Qed.

Lemma apply_time_filter_same (d d' : DataFrame) time_filter :
  (forall e, In e d <-> In e d') ->
  forall e, In e (apply_time_filter time_filter d) <->
            In e (apply_time_filter time_filter d').
Proof.
  intros H e. destruct time_filter as [[s t]|]; simpl; [|apply H].
  rewrite !filter_In, H. tauto.
Qed.

Lemma stage_sessions_same (d d' : DataFrame) (st : string * string) :
  (forall e, In e d <-> In e d') -> stage_sessions d st = stage_sessions d' st.
Proof.
  intros H. apply Z.le_antisymm; apply stage_sessions_incl;
    intros e He; now apply H.
Qed.

Lemma window_incl (df : DataFrame) (s e s' e' : Z) :
  s' <= s -> e <= e' ->
  incl (filtered df (Some (s, e))) (filtered df (Some (s', e'))) /\
  incl (filtered df (Some (s', e'))) (filtered df None).
Proof.
  intros Hs He. split; intros x Hx.
  - apply filtered_In in Hx as [Hx Ht]. apply filtered_In. split; [exact Hx | lia].
  - apply filtered_In in Hx as [Hx _]. exact Hx.
Qed.

End FunnelInput.

(** X1.  In the funnel frame of a frame of events that is not empty, the
    rows carry the labels in the order of [FUNNEL_LABELS], and every row's
    session count lies between 0 and the number of distinct sessions left by
    the time filter. *)
Theorem funnel_rows_labelled_and_bounded stages labels (df : DataFrame)
    time_filter rows :
  df <> [] ->
  generate_funnel_analysis_in stages labels df time_filter = Ok rows ->
  map Stage rows = labels /\
  forall row, In row rows ->
    0 <= Sessions row <=
    nunique (map session_id (apply_time_filter time_filter df)).
Proof.
  intros Hdf Hrows.
  destruct (funnel_analysis_cases stages labels df time_filter)
    as [[Hnil _] | [(_ & Hlab & _ & H) | H]];
    [contradiction | | rewrite H in Hrows; discriminate].
  rewrite H in Hrows. injection Hrows as <-. split.
  - rewrite map_map. simpl. rewrite <- Hlab. apply map_nth_seq.
  - intros row Hin. apply in_map_iff in Hin as (i & <- & _). simpl.
    apply (stage_counts_bounds stages (filtered df time_filter) i).
Qed.

Lemma funnel_rows_labelled_and_bounded_witness :
  exists rows,
    generate_funnel_analysis revisit_df (Some (11, 12)) = Ok rows /\
    map Stage rows = FUNNEL_LABELS /\
    forall row, In row rows ->
      0 <= Sessions row <=
      nunique (map session_id (apply_time_filter (Some (11, 12)) revisit_df)).
Proof.
  eexists. split; [vm_compute; reflexivity|].
  apply (funnel_rows_labelled_and_bounded FUNNEL_STAGES FUNNEL_LABELS
           revisit_df (Some (11, 12))).
  - discriminate.
  - vm_compute; reflexivity.
Defined.

(** X2.  When the list of labels and the list of stages differ in length, or
    the list of stages is empty, the aggregation of a frame that is not empty
    fails in the construction of the result frame ([ValueError]), the columns
    being of unequal length. *)
Theorem funnel_unequal_columns stages labels (df : DataFrame) time_filter :
  df <> [] ->
  List.length labels <> List.length stages \/ stages = [] ->
  generate_funnel_analysis_in stages labels df time_filter = Raise ValueError.
Proof.
  intros Hdf Hbad.
  destruct (funnel_analysis_cases stages labels df time_filter)
    as [[Hnil _] | [(_ & Hlab & Hn & _) | H]]; [contradiction | | exact H].
  destruct Hbad as [Hbad | ->]; [contradiction | simpl in Hn; lia].
Qed.

Lemma funnel_unequal_columns_witness :
  generate_funnel_analysis_in [] [] revisit_df None = Raise ValueError /\
  generate_funnel_analysis_in FUNNEL_STAGES ["Visit"%string] revisit_df None =
    Raise ValueError.
Proof.
  split.
  - apply (funnel_unequal_columns [] [] revisit_df None).
    + discriminate.
    + right; reflexivity.
  - apply (funnel_unequal_columns FUNNEL_STAGES ["Visit"%string] revisit_df None).
    + discriminate.
    + left; simpl; lia.
Defined.

(** X3.  The funnel frame depends on the set of events only: two frames with
    the same events, in any order and with any repetitions, give the same
    result. *)
Theorem funnel_depends_on_event_set stages labels (df df' : DataFrame)
    time_filter :
  (forall e, In e df <-> In e df') ->
  generate_funnel_analysis_in stages labels df time_filter =
  generate_funnel_analysis_in stages labels df' time_filter.
Proof.
  intros Hsame. unfold generate_funnel_analysis_in.
  assert (Hempty : empty df = empty df').
  { destruct df as [|x df], df' as [|y df']; simpl; auto.
    - destruct (proj2 (Hsame y)); now left.
    - destruct (proj1 (Hsame x)); now left. }
  rewrite <- Hempty. destruct (empty df); [reflexivity|].
  pose proof (apply_time_filter_same df df' time_filter Hsame) as Hf.
  assert (Hu : nunique (map session_id (apply_time_filter time_filter df)) =
               nunique (map session_id (apply_time_filter time_filter df'))).
  { apply nunique_same_values. intros s. rewrite !in_map_iff.
    split; intros (e & He & Hin); exists e; (split; [exact He | now apply Hf]). }
  assert (Hc : map (stage_sessions (apply_time_filter time_filter df)) stages =
               map (stage_sessions (apply_time_filter time_filter df')) stages).
  { apply map_ext. intros st. now apply stage_sessions_same. }
  cbv zeta. now rewrite Hu, Hc.
Qed.

Lemma funnel_depends_on_event_set_witness :
  generate_funnel_analysis revisit_df None =
  generate_funnel_analysis (rev revisit_df ++ revisit_df) None.
Proof.
  apply (funnel_depends_on_event_set FUNNEL_STAGES FUNNEL_LABELS revisit_df
           (rev revisit_df ++ revisit_df) None).
  intros e. simpl. tauto.
Defined.

(** X4.  Widening the time window never lowers a stage's session count, and
    no window gives more than the unfiltered frame: row by row, the counts
    under a window are at most those under a window that contains it, which
    are at most those without a window. *)
Theorem wider_window_counts_more (df : DataFrame) (s e s' e' : Z) :
  s' <= s -> e <= e' ->
  exists rows rows' every,
    generate_funnel_analysis df (Some (s, e)) = Ok rows /\
    generate_funnel_analysis df (Some (s', e')) = Ok rows' /\
    generate_funnel_analysis df None = Ok every /\
    List.length rows = List.length every /\
    List.length rows' = List.length every /\
    forall i r r' r'',
      nth_error rows i = Some r -> nth_error rows' i = Some r' ->
      nth_error every i = Some r'' ->
      Sessions r <= Sessions r' <= Sessions r''.
Proof.
  intros Hs He. unfold generate_funnel_analysis.
  destruct df as [|x df].
  - exists [], [], []. do 5 (split; [reflexivity|]).
    intros i r r' r'' Hr. destruct i; discriminate.
  - do 3 eexists.
    split; [apply funnel_analysis_rows; [reflexivity | reflexivity | simpl; lia]|].
    split; [apply funnel_analysis_rows; [reflexivity | reflexivity | simpl; lia]|].
    split; [apply funnel_analysis_rows; [reflexivity | reflexivity | simpl; lia]|].
    split; [now rewrite !length_map|]. split; [now rewrite !length_map|].
    intros i r r' r'' Hr Hr' Hr''.
    apply nth_error_map_seq in Hr as [_ ->].
    apply nth_error_map_seq in Hr' as [_ ->].
    apply nth_error_map_seq in Hr'' as [_ ->].
    destruct (window_incl (x :: df) s e s' e' Hs He) as [H1 H2].
    unfold funnel_row_at. cbn [Sessions].
    split; now apply stage_counts_nth_incl.
Qed.

Lemma wider_window_counts_more_witness :
  exists rows rows' every,
    generate_funnel_analysis revisit_df (Some (11, 11)) = Ok rows /\
    generate_funnel_analysis revisit_df (Some (10, 12)) = Ok rows' /\
    generate_funnel_analysis revisit_df None = Ok every /\
    List.length rows = List.length every /\
    List.length rows' = List.length every /\
    forall i r r' r'',
      nth_error rows i = Some r -> nth_error rows' i = Some r' ->
      nth_error every i = Some r'' ->
      Sessions r <= Sessions r' <= Sessions r''.
Proof.
  apply (wider_window_counts_more revisit_df 11 11 10 12); lia.
Defined.

(** Counts on forward-only data. *)
Lemma forward_only_rows stages labels (df : DataFrame) rows :
  forward_only stages df ->
  generate_funnel_analysis_in stages labels df None = Ok rows ->
  forall j rj rk,
    nth_error rows j = Some rj -> nth_error rows (S j) = Some rk ->
    Sessions rk <= Sessions rj /\
    exists q, Drop_Rate_to_Next rk = pct (Finite q) /\ (0 <= q <= 1)%Q.
Proof.
  intros Hfwd Hrows j rj rk Hj Hk.
  destruct (funnel_analysis_cases stages labels df None)
    as [[_ H] | [(_ & _ & _ & H) | H]]; rewrite H in Hrows;
    [injection Hrows as <- | injection Hrows as <- | discriminate].
  { destruct j; discriminate. }
  apply nth_error_map_seq in Hj as [_ ->].
  apply nth_error_map_seq in Hk as [Hlt ->].
  simpl. change (filtered df None) with df.
  assert (Hle : nth (S j) (stage_counts stages df) 0 <=
                nth j (stage_counts stages df) 0).
  { destruct (nth_error stages j) as [[p a]|] eqn:Ej;
      [|apply nth_error_None in Ej; lia].
    destruct (nth_error stages (S j)) as [[p' a']|] eqn:Ek;
      [|apply nth_error_None in Ek; lia].
    unfold stage_counts.
    rewrite (nth_error_nth _ _ 0 (map_nth_error (stage_sessions df) _ _ Ej)).
    rewrite (nth_error_nth _ _ 0 (map_nth_error (stage_sessions df) _ _ Ek)).
    unfold stage_sessions. apply nunique_incl. intros sid Hsid.
    apply in_map_iff in Hsid as (e0 & <- & He0).
    apply filter_In in He0 as [He0 Hm]. apply page_action_is_true in Hm.
    destruct (Hfwd j p a p' a' e0 Ej Ek He0 (proj1 Hm) (proj2 Hm))
      as (e1 & He1 & Hsid & Hp & Ha).
    rewrite <- Hsid. apply in_map. apply filter_In. split; [exact He1|].
    now apply page_action_is_true. }
  split; [exact Hle|].
  destruct (drop_value_bounds (nth j (stage_counts stages df) 0)
              (nth (S j) (stage_counts stages df) 0))
    as (q & -> & Hq1 & Hq0 & _); [apply stage_counts_bounds|].
  exists q. split; [reflexivity|]. split; [now apply Hq0 | exact Hq1].
Qed.

(** X5.  On forward-only data (every session with an event of a stage also
    has an event of the stage before it) and without a time window, the
    session counts do not increase from one row to the next, and every drop
    rate lies in [0,1]. *)
Theorem forward_only_counts_decrease stages labels (df : DataFrame) rows :
  forward_only stages df ->
  generate_funnel_analysis_in stages labels df None = Ok rows ->
  forall j rj rk,
    nth_error rows j = Some rj -> nth_error rows (S j) = Some rk ->
    Sessions rk <= Sessions rj /\
    exists q, Drop_Rate_to_Next rk = pct (Finite q) /\ (0 <= q <= 1)%Q.
Proof. apply forward_only_rows. Qed.

Lemma forward_only_counts_decrease_witness :
  let df := [ ev "s1" 10 "homepage" "page_view" "desktop" "direct";
              ev "s1" 11 "category_page" "page_view" "desktop" "direct" ]%string in
  exists rows,
    generate_funnel_analysis df None = Ok rows /\
    forall j rj rk,
      nth_error rows j = Some rj -> nth_error rows (S j) = Some rk ->
      Sessions rk <= Sessions rj /\
      exists q, Drop_Rate_to_Next rk = pct (Finite q) /\ (0 <= q <= 1)%Q.
Proof.
  intros df. eexists. split; [vm_compute; reflexivity|].
  apply (forward_only_counts_decrease FUNNEL_STAGES FUNNEL_LABELS df).
  - intros k p a p' a' e Hk Hk' Hin Hp Ha.
    destruct Hin as [<- | [<- | []]]; simpl in Hp, Ha; subst p' a';
      repeat (destruct k as [|k]; simpl in Hk, Hk'; try discriminate).
    injection Hk as <- <-. eexists. split; [left; reflexivity|].
    repeat split.
  - vm_compute; reflexivity.
Defined.

(** ** The bottleneck rows *)

Section BottleneckRows.

Context {kind : SortValues}.

Lemma transition_drop_rate_drop_value (cur nxt : Z) :
  transition_drop_rate cur (cur - nxt) = drop_value cur nxt.
Proof.
  unfold transition_drop_rate, drop_value, np_truediv.
  destruct (Z.ltb_spec 0 cur); [|reflexivity].
  destruct (Z.eqb_spec cur 0); [lia | reflexivity].
Qed.

Lemma sum_Z_app (l l' : list Z) : sum_Z (l ++ l') = sum_Z l + sum_Z l'.
Proof. induction l as [|x l IH]; simpl; [reflexivity | rewrite IH; lia]. Qed.

Lemma sum_Z_perm (l l' : list Z) : Permutation l l' -> sum_Z l = sum_Z l'.
Proof. induction 1; simpl; lia. Qed.

Lemma sum_Z_telescope (f : nat -> Z) (n : nat) :
  sum_Z (map (fun i => f i - f (i + 1)%nat) (seq 0 n)) = f 0%nat - f n.
Proof.
  induction n as [|n IH]; [simpl; lia|].
  rewrite seq_S, map_app, sum_Z_app, IH. simpl.
  rewrite Nat.add_1_r. lia.
Qed.

Lemma Qdiv_int_nonpos (a b : Z) :
  0 < b -> a <= 0 -> (Qdiv_int a b <= 0)%Q.
Proof.
  intros Hb Ha. unfold Qdiv_int.
  apply Qle_shift_div_r; [now apply inject_Z_pos|].
  rewrite Qmult_0_l. unfold Qle; simpl. lia.
Qed.

Lemma transition_rows_In labels funnel_df row :
  In row (transition_rows labels funnel_df) <->
  exists i, (i + 1 < List.length labels)%nat /\
            row = transition_row labels funnel_df i.
Proof.
  unfold transition_rows. rewrite in_map_iff. split.
  - intros (i & <- & Hi). apply range_In in Hi. unfold len in Hi.
    exists i. split; [lia | reflexivity].
  - intros (i & Hi & ->). exists i. split; [reflexivity|].
    apply range_In. unfold len. lia.
Qed.

End BottleneckRows.

(** X6.  The two computations of the drop rates agree: for the funnel frame
    of any frame of events that is not empty, the bottleneck analysis has,
    for each pair of adjacent funnel rows, a row named after the two stages,
    whose sessions lost are the difference of the two session counts and
    whose drop rate is the one in the [Drop_Rate_to_Next] cell of the second
    row of the pair. *)
Theorem bottleneck_agrees_with_funnel_column (kind : SortValues)
    (df : DataFrame) time_filter :
  df <> [] ->
  exists funnel_df rows,
    generate_funnel_analysis df time_filter = Ok funnel_df /\
    generate_bottleneck_analysis funnel_df = Ok rows /\
    List.length funnel_df = 8%nat /\ List.length rows = 7%nat /\
    forall i cur nxt,
      nth_error funnel_df i = Some cur ->
      nth_error funnel_df (S i) = Some nxt ->
      exists row,
        In row rows /\
        Transition row = (Stage cur ++ " → " ++ Stage nxt)%string /\
        Sessions_Lost row = Sessions cur - Sessions nxt /\
        Drop_Rate row = Drop_Rate_to_Next nxt.
Proof.
  intros Hdf. apply empty_false_iff in Hdf.
  pose proof (funnel_analysis_rows FUNNEL_STAGES FUNNEL_LABELS df time_filter
                Hdf eq_refl ltac:(simpl; lia)) as Hf.
  set (counts := stage_counts FUNNEL_STAGES (filtered df time_filter)) in *.
  set (u := total_sessions_of (filtered df time_filter)) in *.
  set (funnel_df := map (funnel_row_at FUNNEL_LABELS counts u)
                        (seq 0 (List.length FUNNEL_STAGES))) in *.
  assert (Hlen : List.length funnel_df = 8%nat) by reflexivity.
  exists funnel_df, (sort_values_desc (transition_rows FUNNEL_LABELS funnel_df)).
  split; [exact Hf|].
  split; [apply bottleneck_analysis_rows;
            [discriminate | rewrite Hlen; simpl; lia | simpl; lia]|].
  split; [exact Hlen|].
  split; [rewrite <- (Permutation_length (sort_values_perm _));
          apply transition_rows_length|].
  intros i cur nxt Hcur Hnxt.
  exists (transition_row FUNNEL_LABELS funnel_df i).
  assert (Hi : (S i < 8)%nat)
    by (rewrite <- Hlen; apply nth_error_Some; congruence).
  split.
  { apply (Permutation_in _ (sort_values_perm _)).
    apply transition_rows_In. exists i. split; [simpl; lia | reflexivity]. }
  unfold transition_row. cbn [Transition Sessions_Lost Drop_Rate].
  rewrite Nat.add_1_r.
  rewrite (nth_error_nth _ _ (mkFunnelRow "" 0 NA NA) Hcur).
  rewrite (nth_error_nth _ _ (mkFunnelRow "" 0 NA NA) Hnxt).
  apply nth_error_map_seq in Hcur as [_ ->].
  apply nth_error_map_seq in Hnxt as [_ ->].
  unfold funnel_row_at. cbn [Stage Sessions Drop_Rate_to_Next].
  split; [reflexivity|]. split; [reflexivity|].
  now rewrite transition_drop_rate_drop_value.
Qed.

Lemma bottleneck_agrees_with_funnel_column_witness :
  exists funnel_df rows,
    generate_funnel_analysis revisit_df None = Ok funnel_df /\
    @generate_bottleneck_analysis stable_kind funnel_df = Ok rows /\
    List.length funnel_df = 8%nat /\ List.length rows = 7%nat /\
    forall i cur nxt,
      nth_error funnel_df i = Some cur ->
      nth_error funnel_df (S i) = Some nxt ->
      exists row,
        In row rows /\
        Transition row = (Stage cur ++ " → " ++ Stage nxt)%string /\
        Sessions_Lost row = Sessions cur - Sessions nxt /\
        Drop_Rate row = Drop_Rate_to_Next nxt.
Proof.
  apply (bottleneck_agrees_with_funnel_column stable_kind revisit_df None).
  discriminate.
Defined.

(** X7.  For a funnel frame whose session counts are non-negative
    [numpy.int64] values (between 0 and 2^63 - 1, where the subtraction of
    line 122 does not wrap), the sessions lost of the rows of the bottleneck
    analysis add up to the session count of the first funnel row minus that
    of the eighth: what is lost over the transitions is what is lost over
    the funnel. *)
Theorem sessions_lost_add_up (kind : SortValues) funnel_df rows :
  funnel_df <> [] ->
  (forall row, In row funnel_df -> 0 <= Sessions row < 2 ^ 63) ->
  generate_bottleneck_analysis funnel_df = Ok rows ->
  (forall row, In row rows -> - 2 ^ 63 < Sessions_Lost row < 2 ^ 63) /\
  exists first eighth,
    nth_error funnel_df 0 = Some first /\
    nth_error funnel_df 7 = Some eighth /\
    sum_Z (map Sessions_Lost rows) = Sessions first - Sessions eighth.
Proof.
  intros Hne Hrange Hrows. unfold generate_bottleneck_analysis in Hrows.
  apply bottleneck_analysis_inv in Hrows as [[Hnil _] | (_ & Hlen & ->)];
    [contradiction|].
  simpl in Hlen. set (d := mkFunnelRow "" 0 NA NA). split.
  - intros row Hin.
    apply (Permutation_in _ (Permutation_sym (sort_values_perm _))) in Hin.
    apply transition_rows_In in Hin as (i & Hi & ->). simpl in Hi.
    unfold transition_row. cbn [Sessions_Lost]. fold d.
    assert (H1 : In (nth i funnel_df d) funnel_df) by (apply nth_In; lia).
    assert (H2 : In (nth (i + 1) funnel_df d) funnel_df) by (apply nth_In; lia).
    apply Hrange in H1. apply Hrange in H2. lia.
  - exists (nth 0 funnel_df d), (nth 7 funnel_df d).
    split; [apply nth_error_nth'; lia|]. split; [apply nth_error_nth'; lia|].
    rewrite <- (sum_Z_perm _ _ (Permutation_map Sessions_Lost (sort_values_perm _))).
    unfold transition_rows. rewrite map_map.
    apply (sum_Z_telescope (fun i => Sessions (nth i funnel_df d)) 7).
Qed.

Lemma sessions_lost_add_up_witness :
  let frame := frame_of_counts [100; 60; 50; 20; 18; 15; 15; 9] in
  exists rows,
    @generate_bottleneck_analysis stable_kind frame = Ok rows /\
    (forall row, In row rows -> - 2 ^ 63 < Sessions_Lost row < 2 ^ 63) /\
    exists first eighth,
      nth_error frame 0 = Some first /\
      nth_error frame 7 = Some eighth /\
      sum_Z (map Sessions_Lost rows) = Sessions first - Sessions eighth.
Proof.
  intros frame. eexists. split; [reflexivity|].
  apply (sessions_lost_add_up stable_kind frame).
  - discriminate.
  - intros row Hin. simpl in Hin.
    repeat (destruct Hin as [<- | Hin]; [simpl; lia|]). destruct Hin.
  - reflexivity.
Defined.

(** X8.  A transition that loses no session (the next stage has at least as
    many sessions as the current one) has a drop rate of at most 0 and the
    severity Low; hence a row of severity High or Medium has lost
    sessions. *)
Theorem no_loss_is_low (kind : SortValues) funnel_df rows row :
  generate_bottleneck_analysis funnel_df = Ok rows ->
  In row rows ->
  Sessions_Lost row <= 0 ->
  Severity row = Low /\
  exists q, Drop_Rate_Numeric row = Finite q /\ (q <= 0)%Q.
Proof.
  intros Hrows Hin Hlost. unfold generate_bottleneck_analysis in Hrows.
  apply bottleneck_analysis_inv in Hrows as [[_ ->] | (_ & _ & ->)];
    [destruct Hin|].
  apply (Permutation_in _ (Permutation_sym (sort_values_perm _))) in Hin.
  apply transition_rows_In in Hin as (i & _ & ->).
  unfold transition_row in *. cbv zeta in *.
  cbn [Sessions_Lost Severity Drop_Rate_Numeric] in *.
  match goal with
  | |- context [transition_drop_rate ?c ?l] =>
      destruct (transition_drop_rate_finite c l) as (q & -> & Hq0 & Hq1);
      assert (Hq : (q <= 0)%Q)
  end.
  { match type of Hq0 with
    | ?c <= 0 -> _ => destruct (Z.ltb_spec 0 c) as [Hc | Hc]
    end.
    - rewrite (Hq1 Hc). now apply Qdiv_int_nonpos.
    - rewrite (Hq0 Hc). apply Qle_refl. }
  split; [|now exists q].
  apply assign_severity_finite.
  apply Qle_trans with 0%Q; [exact Hq | discriminate].
Qed.

Lemma no_loss_is_low_witness :
  let frame := frame_of_counts [100; 60; 50; 20; 18; 15; 15; 9] in
  let row := transition_row FUNNEL_LABELS frame 5 in
  Sessions_Lost row = 0 /\ Severity row = Low /\
  exists q, Drop_Rate_Numeric row = Finite q /\ (q <= 0)%Q.
Proof.
  intros frame row. split; [reflexivity|].
  apply (no_loss_is_low stable_kind frame
           (@sort_values_desc stable_kind (transition_rows FUNNEL_LABELS frame))
           row).
  - reflexivity.
  - vm_compute. do 6 right. left. reflexivity.
  - vm_compute. discriminate.
Defined.

(** ** The segment rows *)

Section SegmentRows.

Lemma nunique_pos (l : list string) : l <> [] -> 1 <= nunique l.
Proof.
  destruct l as [|x l]; [congruence|]. intros _.
  unfold nunique, len. simpl. lia.
Qed.

Lemma segment_numbers_invariants (key : Event -> string) (df : DataFrame)
    (v : string) :
  In v (map key df) ->
  exists total converted,
    segment_numbers key df v =
      (total, converted, Finite (Qdiv_int converted total)) /\
    1 <= total /\ 0 <= converted <= total.
Proof.
  intros Hv. apply in_map_iff in Hv as (e & Hk & He).
  unfold segment_numbers.
  set (events := filter (fun e => String.eqb (key e) v) df).
  assert (Hin : In e events)
    by (apply filter_In; split; [exact He | now apply String.eqb_eq]).
  assert (Ht : 1 <= nunique (map session_id events)).
  { apply nunique_pos. intros Hnil.
    apply (in_map session_id) in Hin. rewrite Hnil in Hin. destruct Hin. }
  assert (Hc : nunique (map session_id (filter is_purchase events)) <=
               nunique (map session_id events)).
  { apply nunique_incl. intros s Hs.
    apply in_map_iff in Hs as (x & <- & Hx).
    apply filter_In in Hx as [Hx _]. now apply in_map. }
  do 2 eexists. split; [|split; [exact Ht | split; [apply nunique_nonneg | exact Hc]]].
  destruct (Z.eqb_spec (nunique (map session_id events)) 0); [lia | reflexivity].
Qed.

Lemma Forall2_length_eq {A B : Type} (R : A -> B -> Prop) (l : list A)
    (l' : list B) :
  Forall2 R l l' -> List.length l' = List.length l.
Proof. induction 1; simpl; congruence. Qed.

Lemma len_concat (ls : list (list string)) :
  len (List.concat ls) = sum_Z (map len ls).
Proof.
  unfold len. induction ls as [|l ls IH]; simpl; [reflexivity|].
  rewrite length_app, Nat2Z.inj_add, IH. reflexivity.
Qed.

(** The sessions selected by [sel] are covered by those selected within the
    partitions of the column [key]. *)
Lemma sessions_covered_by_partitions (key : Event -> string)
    (sel : Event -> bool) (df : DataFrame) :
  nunique (map session_id (filter sel df)) <=
  sum_Z (map (fun v =>
                nunique (map session_id
                  (filter sel (filter (fun e => String.eqb (key e) v) df))))
             (unique (map key df))).
Proof.
  set (part := fun v =>
         unique (map session_id
           (filter sel (filter (fun e => String.eqb (key e) v) df)))).
  replace (map _ (unique (map key df)))
    with (map len (map part (unique (map key df))))
    by (rewrite map_map; reflexivity).
  rewrite <- len_concat. unfold nunique, len. apply inj_le.
  apply NoDup_incl_length; [apply unique_NoDup|].
  intros s Hs. rewrite unique_In in Hs.
  apply in_map_iff in Hs as (e & <- & He).
  apply filter_In in He as [He Hsel].
  apply in_concat. exists (part (key e)). split.
  - apply in_map. apply unique_In. now apply in_map.
  - unfold part. apply unique_In. apply in_map.
    apply filter_In. split; [|exact Hsel].
    apply filter_In. split; [exact He | apply String.eqb_refl].
Qed.

Lemma filter_all {A : Type} (f : A -> bool) (l : list A) :
  (forall x, In x l -> f x = true) -> filter f l = l.
Proof.
  induction l as [|x l IH]; intros H; simpl; [reflexivity|].
  rewrite (H x) by (now left). f_equal. apply IH. intros y Hy. apply H. now right.
Qed.

Lemma filter_none {A : Type} (f : A -> bool) (l : list A) :
  (forall x, In x l -> f x = false) -> filter f l = [].
Proof.
  induction l as [|x l IH]; intros H; simpl; [reflexivity|].
  rewrite (H x) by (now left). apply IH. intros y Hy. apply H. now right.
Qed.

Lemma unique_constant (l : list string) (d : string) :
  l <> [] -> (forall x, In x l -> x = d) -> unique l = [d].
Proof.
  induction l as [|x l IH]; intros Hne Hall; [congruence|].
  simpl. rewrite (Hall x) by (now left).
  destruct l as [|y l]; [reflexivity|].
  rewrite IH; [|discriminate | intros z Hz; apply Hall; now right].
  simpl. now rewrite String.eqb_refl.
Qed.

Lemma segment_sums (key : Event -> string) (df : DataFrame) :
  nunique (map session_id df) <=
    sum_Z (map (fun n => fst (fst n)) (segment_conversion key df)) /\
  nunique (map session_id (filter is_purchase df)) <=
    sum_Z (map (fun n => snd (fst n)) (segment_conversion key df)).
Proof.
  unfold segment_conversion, segment_numbers. rewrite !map_map. simpl. split.
  - pose proof (sessions_covered_by_partitions key (fun _ => true) df) as H.
    rewrite (filter_all (fun _ => true) df) in H by reflexivity.
    eapply Z.le_trans; [exact H|]. apply Z.eq_le_incl. f_equal.
    apply map_ext. intros v. now rewrite filter_all.
  - apply (sessions_covered_by_partitions key is_purchase df).
Qed.

Lemma device_numbers_columns (rows : list DeviceRow) :
  map Total_Sessions rows = map (fun n => fst (fst n)) (map device_numbers rows) /\
  map Conversions rows = map (fun n => snd (fst n)) (map device_numbers rows).
Proof. rewrite !map_map. split; reflexivity. Qed.

Lemma traffic_numbers_columns (rows : list TrafficRow) :
  map T_Sessions rows = map (fun n => fst (fst n)) (map traffic_numbers rows) /\
  map T_Conversions rows = map (fun n => snd (fst n)) (map traffic_numbers rows).
Proof. rewrite !map_map. split; reflexivity. Qed.

Lemma device_analysis_numbers (df : DataFrame) :
  exists rows,
    generate_device_analysis df = Ok rows /\
    map device_numbers rows = segment_conversion device df.
Proof.
  destruct (device_analysis_rows df) as (rows & Hrows & Hall).
  exists rows. split; [exact Hrows|].
  apply Forall2_map_eq. revert Hall. apply Forall2_impl.
  now intros v row (_ & Hnum & _).
Qed.

Lemma traffic_analysis_numbers (df : DataFrame) :
  exists rows,
    generate_traffic_analysis df = Ok rows /\
    map traffic_numbers rows = segment_conversion traffic_source df.
Proof.
  destruct (traffic_analysis_rows df) as (rows & Hrows & Hall).
  exists rows. split; [exact Hrows|].
  apply Forall2_map_eq. revert Hall. apply Forall2_impl.
  now intros v row (_ & Hnum & _).
Qed.

End SegmentRows.

(** X9.  The device analysis has one row per distinct device of the frame.
    In every row there is at least one session, the conversions lie between
    0 and the number of sessions, and the conversion rate is their quotient,
    a value in [0,1]: the branch for a partition without sessions is never
    taken.  The same holds of the traffic source analysis. *)
Theorem segment_rows_invariants (df : DataFrame) :
  (exists rows,
     generate_device_analysis df = Ok rows /\
     len rows = nunique (map device df) /\
     forall row, In row rows ->
       1 <= Total_Sessions row /\
       0 <= Conversions row <= Total_Sessions row /\
       Conversion_Rate_Numeric row =
         Finite (Qdiv_int (Conversions row) (Total_Sessions row)) /\
       (0 <= Qdiv_int (Conversions row) (Total_Sessions row) <= 1)%Q) /\
  (exists rows,
     generate_traffic_analysis df = Ok rows /\
     len rows = nunique (map traffic_source df) /\
     forall row, In row rows ->
       1 <= T_Sessions row /\
       0 <= T_Conversions row <= T_Sessions row /\
       T_Conversion_Rate_Numeric row =
         Finite (Qdiv_int (T_Conversions row) (T_Sessions row)) /\
       (0 <= Qdiv_int (T_Conversions row) (T_Sessions row) <= 1)%Q).
Proof.
  split.
  - destruct (device_analysis_rows df) as (rows & Hrows & Hall).
    exists rows. split; [exact Hrows|]. split.
    { unfold nunique, len. f_equal. apply (Forall2_length_eq _ _ _ Hall). }
    intros row Hin.
    destruct (Forall2_In_r _ _ _ _ Hall Hin) as (v & Hv & _ & Hnum & _).
    rewrite unique_In in Hv.
    destruct (segment_numbers_invariants device df v Hv)
      as (t & c & Hseg & Ht & Hc).
    rewrite Hseg in Hnum. unfold device_numbers in Hnum.
    injection Hnum as -> -> ->.
    split; [exact Ht|]. split; [exact Hc|]. split; [reflexivity|].
    split; [apply Qdiv_int_nonneg | apply Qdiv_int_le_1]; lia.
  - destruct (traffic_analysis_rows df) as (rows & Hrows & Hall).
    exists rows. split; [exact Hrows|]. split.
    { unfold nunique, len. f_equal. apply (Forall2_length_eq _ _ _ Hall). }
    intros row Hin.
    destruct (Forall2_In_r _ _ _ _ Hall Hin) as (v & Hv & _ & Hnum & _).
    rewrite unique_In in Hv.
    destruct (segment_numbers_invariants traffic_source df v Hv)
      as (t & c & Hseg & Ht & Hc).
    rewrite Hseg in Hnum. unfold traffic_numbers in Hnum.
    injection Hnum as -> -> ->.
    split; [exact Ht|]. split; [exact Hc|]. split; [reflexivity|].
    split; [apply Qdiv_int_nonneg | apply Qdiv_int_le_1]; lia.
Qed.

(** X10.  Segment totals overlap: a session is counted in the row of every
    device one of its events carries, so the sessions of the device rows add
    up to at least the number of distinct sessions of the frame, and their
    conversions to at least the number of distinct sessions with a purchase
    event (the session count of the funnel's Purchase stage).  The same holds
    of the traffic source rows. *)
Theorem segment_totals_overlap (df : DataFrame) :
  (exists rows,
     generate_device_analysis df = Ok rows /\
     nunique (map session_id df) <= sum_Z (map Total_Sessions rows) /\
     stage_sessions df ("payment_page", "purchase")%string <=
       sum_Z (map Conversions rows)) /\
  (exists rows,
     generate_traffic_analysis df = Ok rows /\
     nunique (map session_id df) <= sum_Z (map T_Sessions rows) /\
     stage_sessions df ("payment_page", "purchase")%string <=
       sum_Z (map T_Conversions rows)).
Proof.
  split.
  - destruct (device_analysis_numbers df) as (rows & Hrows & Hnum).
    exists rows. split; [exact Hrows|].
    destruct (device_numbers_columns rows) as [-> ->]. rewrite Hnum.
    apply segment_sums.
  - destruct (traffic_analysis_numbers df) as (rows & Hrows & Hnum).
    exists rows. split; [exact Hrows|].
    destruct (traffic_numbers_columns rows) as [-> ->]. rewrite Hnum.
    apply segment_sums.
Qed.

(** X11.  When every event of a frame that is not empty carries the same
    device, the device analysis is a single row: its sessions are the
    distinct sessions of the frame and its conversions the distinct sessions
    with a purchase event. *)
Theorem single_device_row (df : DataFrame) (d : string) :
  df <> [] ->
  (forall e, In e df -> device e = d) ->
  exists row,
    generate_device_analysis df = Ok [row] /\
    Device row = capitalize d /\
    Total_Sessions row = nunique (map session_id df) /\
    Conversions row = stage_sessions df ("payment_page", "purchase")%string.
Proof.
  intros Hne Hall.
  destruct (device_analysis_rows df) as (rows & Hrows & HR).
  rewrite (unique_constant (map device df) d) in HR.
  - inversion HR as [|v row l l' (Hlabel & Hnum & _) Hnil]; subst.
    inversion Hnil; subst.
    exists row. split; [exact Hrows|]. split; [exact Hlabel|].
    unfold device_numbers, segment_numbers in Hnum.
    rewrite (filter_all (fun e => String.eqb (device e) d) df) in Hnum
      by (intros e He; apply String.eqb_eq; now apply Hall).
    injection Hnum as -> -> _. split; reflexivity.
  - destruct df; [congruence | discriminate].
  - intros x Hx. apply in_map_iff in Hx as (e & <- & He). now apply Hall.
Qed.

Lemma single_device_row_witness :
  exists row,
    generate_device_analysis boundary_df = Ok [row] /\
    Device row = capitalize "desktop" /\
    Total_Sessions row = nunique (map session_id boundary_df) /\
    Conversions row =
      stage_sessions boundary_df ("payment_page", "purchase")%string.
Proof.
  apply (single_device_row boundary_df "desktop").
  - discriminate.
  - intros e [<- | []]. reflexivity.
Defined.

(** ** The dashboard's overall conversion rate *)

Section Dashboard.

Lemma stage_sessions_none (df : DataFrame) (p a : string) :
  (forall e, In e df -> page_action_is p a e = false) ->
  stage_sessions df (p, a) = 0.
Proof. intros H. unfold stage_sessions. now rewrite filter_none. Qed.

Lemma stage_sessions_some (df : DataFrame) (p a : string) (e : Event) :
  In e df -> page_action_is p a e = true -> 1 <= stage_sessions df (p, a).
Proof.
  intros He Hm. unfold stage_sessions. apply nunique_pos. intros Hnil.
  assert (Hin : In (session_id e) (map session_id (filter (page_action_is p a) df)))
    by (apply in_map, filter_In; auto).
  rewrite Hnil in Hin. destruct Hin.
Qed.

Lemma overall_cr_of_funnel (df : DataFrame) time_filter :
  df <> [] ->
  exists funnel_df,
    generate_funnel_analysis df time_filter = Ok funnel_df /\
    overall_cr funnel_df =
      Ok (np_truediv
            (stage_sessions (filtered df time_filter)
               ("payment_page", "purchase")%string)
            (stage_sessions (filtered df time_filter)
               ("homepage", "page_view")%string)) /\
    exists last_row,
      iloc_last funnel_df = Ok last_row /\
      Conversion_Rate_from_Start last_row =
        pct (conversion_value (total_sessions_of (filtered df time_filter))
               (stage_sessions (filtered df time_filter)
                  ("payment_page", "purchase")%string)).
Proof.
  intros Hdf. apply empty_false_iff in Hdf.
  eexists. split;
    [apply funnel_analysis_rows; [exact Hdf | reflexivity | simpl; lia]|].
  split; [reflexivity|]. eexists. split; reflexivity.
Qed.

Lemma Qdiv_int_antitone (c h u : Z) :
  0 <= c -> 0 < h <= u -> (Qdiv_int c u <= Qdiv_int c h)%Q.
Proof.
  intros Hc Hu. unfold Qdiv_int.
  apply Qle_shift_div_l; [apply inject_Z_pos; lia|].
  setoid_replace (inject_Z c / inject_Z u * inject_Z h)%Q
    with ((inject_Z c * inject_Z h) / inject_Z u)%Q
    by (field; intros H; unfold Qeq in H; simpl in H; lia).
  apply Qle_shift_div_r; [apply inject_Z_pos; lia|].
  rewrite <- !inject_Z_mult, <- Zle_Qle. nia.
Qed.

End Dashboard.

(** X12.  The dashboard's overall conversion rate is not clamped.  For a
    frame of events that is not empty but has, in the time window, no page
    view of the homepage, the funnel frame has 0 sessions in its first row,
    and the rate computed from it is NaN when no session purchased and
    infinite otherwise, where the rates of the aggregation are 0. *)
Theorem overall_cr_not_clamped (df : DataFrame) time_filter :
  df <> [] ->
  (forall e, In e (apply_time_filter time_filter df) ->
             page_action_is "homepage" "page_view" e = false) ->
  exists funnel_df first_row,
    generate_funnel_analysis df time_filter = Ok funnel_df /\
    nth_error funnel_df 0 = Some first_row /\ Sessions first_row = 0 /\
    (exists q, Conversion_Rate_from_Start first_row = pct (Finite q) /\
               (q == 0)%Q) /\
    ((stage_sessions (apply_time_filter time_filter df)
        ("payment_page", "purchase")%string = 0 /\
      overall_cr funnel_df = Ok NaN) \/
     (0 < stage_sessions (apply_time_filter time_filter df)
            ("payment_page", "purchase")%string /\
      overall_cr funnel_df = Ok PosInf)).
Proof.
  intros Hdf Hnone.
  destruct (overall_cr_of_funnel df time_filter Hdf) as (funnel_df & Hf & Hcr & _).
  pose proof Hdf as Hdf'. apply empty_false_iff in Hdf'.
  destruct (funnel_analysis_nth FUNNEL_STAGES FUNNEL_LABELS df time_filter 0
              Hdf' eq_refl ltac:(simpl; lia)) as (rows & Hrows & _ & Hfirst).
  unfold generate_funnel_analysis in Hf. rewrite Hrows in Hf.
  injection Hf as <-.
  pose proof (stage_sessions_none _ _ _ Hnone) as H0.
  fold (filtered df time_filter) in *.
  eexists. eexists. split; [exact Hrows|]. split; [exact Hfirst|].
  unfold funnel_row_at. cbn [Sessions Conversion_Rate_from_Start].
  change (nth 0 (stage_counts FUNNEL_STAGES (filtered df time_filter)) 0)
    with (stage_sessions (filtered df time_filter) ("homepage", "page_view")%string).
  rewrite H0. split; [reflexivity|]. split.
  { unfold conversion_value.
    destruct (0 <? _); eexists; (split; [reflexivity|]);
      [apply Qmult_0_l | reflexivity]. }
  rewrite Hcr, H0. unfold np_truediv. simpl (0 =? 0).
  pose proof (proj1 (stage_sessions_le (filtered df time_filter)
                       ("payment_page", "purchase")%string)) as Hp.
  destruct (Z.ltb_spec 0 (stage_sessions (filtered df time_filter)
                            ("payment_page", "purchase")%string)) as [Hpos | Hle].
  - right. split; [exact Hpos | reflexivity].
  - left. split; [lia|].
    destruct (Z.ltb_spec (stage_sessions (filtered df time_filter)
                            ("payment_page", "purchase")%string) 0);
      [lia | reflexivity].
Qed.

Lemma overall_cr_not_clamped_witness :
  exists funnel_df first_row,
    generate_funnel_analysis cross_device_df (Some (20, 30)) = Ok funnel_df /\
    nth_error funnel_df 0 = Some first_row /\ Sessions first_row = 0 /\
    (exists q, Conversion_Rate_from_Start first_row = pct (Finite q) /\
               (q == 0)%Q) /\
    ((stage_sessions (apply_time_filter (Some (20, 30)) cross_device_df)
        ("payment_page", "purchase")%string = 0 /\
      overall_cr funnel_df = Ok NaN) \/
     (0 < stage_sessions (apply_time_filter (Some (20, 30)) cross_device_df)
            ("payment_page", "purchase")%string /\
      overall_cr funnel_df = Ok PosInf)).
Proof.
  apply (overall_cr_not_clamped cross_device_df (Some (20, 30))).
  - discriminate.
  - intros e [<- | []]. reflexivity.
Defined.

(** X13.  When some event in the time window is a page view of the homepage,
    the dashboard's overall conversion rate is the number of sessions with a
    purchase divided by the number of sessions with a homepage view; it is
    at least the conversion rate in the last row of the funnel frame, whose
    denominator is the number of all sessions. *)
Theorem overall_cr_at_least_funnel_rate (df : DataFrame) time_filter (e : Event) :
  In e (apply_time_filter time_filter df) ->
  page_action_is "homepage" "page_view" e = true ->
  exists funnel_df last_row q q',
    generate_funnel_analysis df time_filter = Ok funnel_df /\
    overall_cr funnel_df = Ok (Finite q) /\
    q = Qdiv_int
          (stage_sessions (apply_time_filter time_filter df)
             ("payment_page", "purchase")%string)
          (stage_sessions (apply_time_filter time_filter df)
             ("homepage", "page_view")%string) /\
    iloc_last funnel_df = Ok last_row /\
    Conversion_Rate_from_Start last_row = pct (Finite q') /\
    (q' <= q)%Q.
Proof.
  intros He Hm.
  assert (Hdf : df <> []).
  { intros ->. destruct time_filter as [[s t]|]; destruct He. }
  destruct (overall_cr_of_funnel df time_filter Hdf)
    as (funnel_df & Hf & Hcr & last_row & Hlast & Hconv).
  fold (filtered df time_filter) in *.
  pose proof (stage_sessions_some _ _ _ e He Hm) as Hh.
  pose proof (stage_sessions_le (filtered df time_filter)
                ("homepage", "page_view")%string) as [_ Hhu].
  pose proof (stage_sessions_le (filtered df time_filter)
                ("payment_page", "purchase")%string) as [Hp0 Hpu].
  exists funnel_df, last_row. do 2 eexists.
  split; [exact Hf|]. split.
  { rewrite Hcr. unfold np_truediv.
    destruct (Z.eqb_spec (stage_sessions (filtered df time_filter)
                            ("homepage", "page_view")%string) 0); [lia|].
    reflexivity. }
  split; [reflexivity|]. split; [exact Hlast|]. split.
  { rewrite Hconv. unfold conversion_value.
    destruct (Z.ltb_spec 0 (total_sessions_of (filtered df time_filter)));
      [reflexivity | lia]. }
  apply Qdiv_int_antitone; lia.
Qed.

Lemma overall_cr_at_least_funnel_rate_witness :
  exists funnel_df last_row q q',
    generate_funnel_analysis revisit_df None = Ok funnel_df /\
    overall_cr funnel_df = Ok (Finite q) /\
    q = Qdiv_int
          (stage_sessions (apply_time_filter None revisit_df)
             ("payment_page", "purchase")%string)
          (stage_sessions (apply_time_filter None revisit_df)
             ("homepage", "page_view")%string) /\
    iloc_last funnel_df = Ok last_row /\
    Conversion_Rate_from_Start last_row = pct (Finite q') /\
    (q' <= q)%Q.
Proof.
  apply (overall_cr_at_least_funnel_rate revisit_df None
           (ev "s1" 10 "homepage" "page_view" "desktop" "direct")).
  - left; reflexivity.
  - reflexivity.
Defined.

(** ** The processing run *)

Section ProcessingRun.

Context {kind : SortValues}.

Lemma skipn_In {A : Type} (n : nat) (l : list A) (x : A) :
  In x (skipn n l) -> In x l.
Proof.
  intros H. rewrite <- (firstn_skipn n l). apply in_or_app. now right.
Qed.

Lemma sorted_head_dominates (n : nat) (l : list BottleneckRow) :
  StronglySorted drop_ge l ->
  forall top other, In top (firstn n l) -> In other (skipn n l) ->
                    drop_ge top other.
Proof.
  intros Hs. revert n. induction Hs as [|x l Hs IH Hx]; intros n top other.
  - rewrite firstn_nil. intros [].
  - destruct n as [|n]; simpl; [intros []|].
    intros [<- | Htop] Hother.
    + rewrite Forall_forall in Hx. apply Hx.
      now apply (skipn_In n).
    + now apply (IH n).
Qed.

(** A run on a frame that is not empty. *)
Lemma process_run (fs : FileSystem) (df : DataFrame) :
  clickstream_data_csv fs = Some df -> df <> [] ->
  exists funnel_df device_df traffic_df last_row,
    generate_funnel_analysis df None = Ok funnel_df /\
    List.length funnel_df = 8%nat /\
    generate_device_analysis df = Ok device_df /\
    generate_traffic_analysis df = Ok traffic_df /\
    iloc_last funnel_df = Ok last_row /\
    Conversion_Rate_from_Start last_row =
      pct (Finite (Qdiv_int (stage_sessions df ("payment_page", "purchase")%string)
                            (nunique (map session_id df)))) /\
    let bottleneck_df := sort_values_desc (transition_rows FUNNEL_LABELS funnel_df) in
    process_and_save_all_data fs =
      (mkFileSystem (Some df) (Some funnel_df) (Some bottleneck_df)
         (Some device_df) (Some traffic_df),
       Ok ([ProcessingComplete;
            TotalEvents (len df);
            UniqueSessions (nunique (map session_id df));
            ConversionRate (Conversion_Rate_from_Start last_row)] ++
           map (fun row => TopBottleneck (Transition row) (Drop_Rate row)
                             (Severity row))
               (head 3 bottleneck_df))).
Proof.
  intros Hfile Hdf.
  destruct (overall_cr_of_funnel df None Hdf)
    as (funnel_df & Hf & _ & last_row & Hlast & Hconv).
  destruct (device_analysis_rows df) as (device_df & Hd & _).
  destruct (traffic_analysis_rows df) as (traffic_df & Ht & _).
  assert (Hlen : List.length funnel_df = 8%nat).
  { pose proof Hdf as Hdf'. apply empty_false_iff in Hdf'.
    unfold generate_funnel_analysis in Hf.
    rewrite (funnel_analysis_rows FUNNEL_STAGES FUNNEL_LABELS df None Hdf'
               eq_refl ltac:(simpl; lia)) in Hf.
    injection Hf as <-. reflexivity. }
  exists funnel_df, device_df, traffic_df, last_row.
  split; [exact Hf|]. split; [exact Hlen|]. split; [exact Hd|].
  split; [exact Ht|]. split; [exact Hlast|]. split.
  { rewrite Hconv. change (filtered df None) with df.
    unfold conversion_value, total_sessions_of.
    assert (1 <= nunique (map session_id df)).
    { apply nunique_pos. destruct df; [congruence | discriminate]. }
    destruct (Z.ltb_spec 0 (nunique (map session_id df))); [reflexivity | lia]. }
  intros bottleneck_df.
  unfold process_and_save_all_data, load_clickstream_data.
  rewrite Hfile. apply empty_false_iff in Hdf. rewrite Hdf, Hf.
  unfold generate_bottleneck_analysis.
  rewrite bottleneck_analysis_rows
    by (try (intros ->; discriminate); try rewrite Hlen; simpl; lia).
  rewrite Hd, Ht, Hlast. destruct fs; simpl in *. now subst.
Qed.

End ProcessingRun.

(** X15.  The summary of a run with data reports, as conversion rate, the
    number of sessions with a purchase divided by the number of sessions,
    and then exactly three bottlenecks: the first three rows of the saved
    bottleneck frame, each with a drop rate at least that of every row left
    out. *)
Theorem processing_run_summary (kind : SortValues) (fs : FileSystem)
    (df : DataFrame) :
  clickstream_data_csv fs = Some df -> df <> [] ->
  exists bottleneck_df,
    ecommerce_bottleneck_analysis_csv (fst (process_and_save_all_data fs)) =
      Some bottleneck_df /\
    snd (process_and_save_all_data fs) =
      Ok ([ProcessingComplete;
           TotalEvents (len df);
           UniqueSessions (nunique (map session_id df));
           ConversionRate
             (pct (Finite (Qdiv_int
                             (stage_sessions df ("payment_page", "purchase")%string)
                             (nunique (map session_id df)))))] ++
          map (fun row => TopBottleneck (Transition row) (Drop_Rate row)
                            (Severity row))
              (head 3 bottleneck_df)) /\
    List.length (head 3 bottleneck_df) = 3%nat /\
    forall top other,
      In top (head 3 bottleneck_df) -> In other (skipn 3 bottleneck_df) ->
      drop_ge top other.
Proof.
  intros Hfile Hdf.
  destruct (process_run fs df Hfile Hdf)
    as (funnel_df & device_df & traffic_df & last_row &
        Hf & Hlen & Hd & Ht & _ & Hconv & Hrun).
  cbv zeta in Hrun. rewrite Hrun. cbn [fst snd ecommerce_bottleneck_analysis_csv].
  eexists. split; [reflexivity|]. rewrite Hconv. split; [reflexivity|]. split.
  - unfold head. rewrite length_firstn.
    rewrite <- (Permutation_length (sort_values_perm _)).
    rewrite transition_rows_length. reflexivity.
  - apply sorted_head_dominates. apply sort_values_sorted.
Qed.

Lemma processing_run_summary_witness :
  let fs := mkFileSystem (Some revisit_df) None None None None in
  exists bottleneck_df,
    ecommerce_bottleneck_analysis_csv
      (fst (@process_and_save_all_data stable_kind fs)) = Some bottleneck_df /\
    snd (@process_and_save_all_data stable_kind fs) =
      Ok ([ProcessingComplete;
           TotalEvents (len revisit_df);
           UniqueSessions (nunique (map session_id revisit_df));
           ConversionRate
             (pct (Finite (Qdiv_int
                             (stage_sessions revisit_df
                                ("payment_page", "purchase")%string)
                             (nunique (map session_id revisit_df)))))] ++
          map (fun row => TopBottleneck (Transition row) (Drop_Rate row)
                            (Severity row))
              (head 3 bottleneck_df)) /\
    List.length (head 3 bottleneck_df) = 3%nat /\
    forall top other,
      In top (head 3 bottleneck_df) -> In other (skipn 3 bottleneck_df) ->
      drop_ge top other.
Proof.
  intros fs.
  apply (processing_run_summary stable_kind fs revisit_df).
  - reflexivity.
  - discriminate.
Defined.

(** ** The event generator *)

Section Generator.

Ltac pick_member := repeat (first [left; reflexivity | right]).

Ltac refute_members :=
  repeat match goal with
         | H : _ \/ _ |- _ => destruct H
         | H : False |- _ => destruct H
         | H : _ = _ |- _ => discriminate H
         end.

Lemma constrain_action_table (page action : string) :
  In page PAGES -> In action USER_ACTIONS ->
  In (constrain_action page action) USER_ACTIONS /\
  (In page ["homepage"; "category_page"]%string ->
   In (constrain_action page action) ["page_view"; "click"]%string) /\
  (page = "product_page"%string ->
   ~ In (constrain_action page action) ["begin_checkout"; "purchase"]%string) /\
  (In page ["checkout_page"; "payment_page"]%string ->
   constrain_action page action <> "add_to_cart"%string) /\
  (page = "order_confirmation"%string ->
   constrain_action page action = "page_view"%string) /\
  (constrain_action page action = "purchase"%string ->
   action = "purchase"%string /\
   In page ["cart_page"; "checkout_page"; "payment_page"]%string) /\
  constrain_action page (constrain_action page action) =
    constrain_action page action.
Proof.
  intros Hp Ha. simpl in Hp, Ha.
  repeat (destruct Hp as [<- | Hp]; [|]); try destruct Hp;
    repeat (destruct Ha as [<- | Ha]; [|]); try destruct Ha;
    vm_compute;
    repeat (split; [try (intros; refute_members; try reflexivity;
                         try (split; [reflexivity|]); pick_member)|]);
    reflexivity.
Qed.

Lemma generate_session_length (s : SessionDraws) :
  List.length (generate_session s) =
  if complete_funnel s then
    List.length (complete_funnel_steps (continue_to_checkout s)
                   (complete_purchase s))
  else num_events s.
Proof.
  unfold generate_session.
  destruct (complete_funnel s); now rewrite length_map, length_seq.
Qed.

Lemma generate_session_nth (s : SessionDraws) (i : nat) (e : Event) :
  nth_error (generate_session s) i = Some e ->
  session_id e = drawn_session_id s /\
  user_id e = drawn_user_id s /\
  timestamp e = current_time s i.
Proof.
  unfold generate_session. destruct (complete_funnel s); intros H;
    apply nth_error_map_seq in H as [_ ->].
  - destruct (nth i _ _) as [[p a] r]. repeat split.
  - repeat split.
Qed.

Lemma current_time_increases (s : SessionDraws) (i j : nat) :
  (forall k, 1 <= pause s k) -> (i < j)%nat ->
  current_time s i < current_time s j.
Proof.
  intros Hp Hij. induction Hij as [|j Hij IH]; cbn [current_time].
  - specialize (Hp i). lia.
  - specialize (Hp j). lia.
Qed.

Lemma drawable_pause (s : SessionDraws) :
  drawable s -> forall k, 1 <= pause s k.
Proof.
  unfold drawable. destruct (complete_funnel s).
  - intros H k. specialize (H k). lia.
  - intros [_ H] k. specialize (H k). lia.
Qed.

Lemma StronglySorted_map_seq {A : Type} (R : A -> A -> Prop) (f : nat -> A)
    (a n : nat) :
  (forall i j, (i < j)%nat -> R (f i) (f j)) ->
  StronglySorted R (map f (seq a n)).
Proof.
  intros HR. revert a. induction n as [|n IH]; intros a; simpl; constructor.
  - apply IH.
  - apply Forall_forall. intros x Hx.
    apply in_map_iff in Hx as (j & <- & Hj). apply in_seq in Hj.
    apply HR. lia.
Qed.

Lemma generate_session_times (s : SessionDraws) :
  map timestamp (generate_session s) =
  map (current_time s) (seq 0 (List.length (generate_session s))).
Proof.
  rewrite generate_session_length. unfold generate_session.
  destruct (complete_funnel s); rewrite map_map; apply map_ext; intros i.
  - now destruct (nth i _ _) as [[p a] r].
  - reflexivity.
Qed.

(** The pages and actions of a complete-funnel session are those of its
    steps. *)
Lemma complete_session_steps (s : SessionDraws) :
  complete_funnel s = true ->
  map (fun e => (page e, action e)) (generate_session s) =
  map fst (complete_funnel_steps (continue_to_checkout s) (complete_purchase s)).
Proof.
  intros Hc. unfold generate_session. rewrite Hc.
  destruct (continue_to_checkout s), (complete_purchase s); reflexivity.
Qed.

Lemma complete_steps_forward (checkout purchase : bool) (k : nat)
    (p a p' a' : string) :
  nth_error FUNNEL_STAGES k = Some (p, a) ->
  nth_error FUNNEL_STAGES (S k) = Some (p', a') ->
  In (p', a') (map fst (complete_funnel_steps checkout purchase)) ->
  In (p, a) (map fst (complete_funnel_steps checkout purchase)).
Proof.
  intros Hk Hk' Hin.
  repeat (destruct k as [|k]; simpl in Hk, Hk'; try discriminate);
    injection Hk as <- <-; injection Hk' as <- <-;
    destruct checkout, purchase; simpl in Hin |- *;
    refute_members; pick_member.
Qed.

Lemma complete_steps_first_five (checkout purchase : bool) (st : string * string) :
  In st (firstn 5 FUNNEL_STAGES) ->
  In st (map fst (complete_funnel_steps checkout purchase)).
Proof.
  intros Hin. simpl in Hin.
  repeat (destruct Hin as [<- | Hin]); try destruct Hin;
    destruct checkout, purchase; simpl; pick_member.
Qed.

Lemma session_has_step (s : SessionDraws) (p a : string) :
  In (p, a) (map (fun e => (page e, action e)) (generate_session s)) ->
  exists e, In e (generate_session s) /\
            session_id e = drawn_session_id s /\ page e = p /\ action e = a.
Proof.
  intros Hin. apply in_map_iff in Hin as (e & Hpa & He).
  injection Hpa as Hp Ha. exists e. split; [exact He|].
  apply In_nth_error in He as (i & Hi).
  destruct (generate_session_nth s i e Hi) as (Hsid & _). auto.
Qed.

Lemma all_events_In (sessions : list SessionDraws) (e : Event) :
  In e (all_events sessions) <->
  exists s, In s sessions /\ In e (generate_session s).
Proof.
  unfold all_events. rewrite in_concat. split.
  - intros (l & Hl & He). apply in_map_iff in Hl as (s & <- & Hs). now exists s.
  - intros (s & Hs & He). exists (generate_session s). split; [|exact He].
    now apply in_map.
Qed.

Lemma complete_sessions_forward_only (sessions : list SessionDraws) :
  (forall s, In s sessions -> complete_funnel s = true) ->
  forward_only FUNNEL_STAGES (all_events sessions).
Proof.
  intros Hall k p a p' a' e Hk Hk' He Hp Ha.
  apply all_events_In in He as (s & Hs & He).
  destruct (session_has_step s p a) as (e0 & He0 & Hsid & Hp0 & Ha0).
  { rewrite (complete_session_steps s (Hall s Hs)).
    apply (complete_steps_forward _ _ k p a p' a' Hk Hk').
    rewrite <- (complete_session_steps s (Hall s Hs)).
    apply in_map_iff. exists e. split; [now rewrite Hp, Ha | exact He]. }
  exists e0. split; [apply all_events_In; now exists s|].
  apply In_nth_error in He as (i & Hi).
  destruct (generate_session_nth s i e Hi) as (Hsid' & _).
  repeat split; congruence.
Qed.

End Generator.

(** X16.  An event drawn by [generate_event] has an action its page allows:
    only page views and clicks on the homepage and the category page, no
    checkout or purchase on the product page, nothing added to the cart on
    the checkout and payment pages, only page views on the order
    confirmation.  A purchase is recorded only when one was drawn, and then
    on the cart, checkout or payment page; the metadata is empty unless the
    action is a cart action or a purchase. *)
Theorem generated_event_fits_page (sid uid : string) (ts : Z) (d : Draws) :
  In (drawn_page d) PAGES -> In (drawn_action d) USER_ACTIONS ->
  let e := generate_event sid uid ts d in
  session_id e = sid /\ page e = drawn_page d /\
  In (action e) USER_ACTIONS /\
  (In (page e) ["homepage"; "category_page"]%string ->
   In (action e) ["page_view"; "click"]%string) /\
  (page e = "product_page"%string ->
   ~ In (action e) ["begin_checkout"; "purchase"]%string) /\
  (In (page e) ["checkout_page"; "payment_page"]%string ->
   action e <> "add_to_cart"%string) /\
  (page e = "order_confirmation"%string -> action e = "page_view"%string) /\
  (action e = "purchase"%string ->
   drawn_action d = "purchase"%string /\
   In (page e) ["cart_page"; "checkout_page"; "payment_page"]%string) /\
  (metadata e = "{}"%string \/
   In (action e) ["add_to_cart"; "remove_from_cart"; "purchase"]%string).
Proof.
  intros Hp Ha e.
  destruct (constrain_action_table _ _ Hp Ha)
    as (H1 & H2 & H3 & H4 & H5 & H6 & _).
  unfold e, generate_event. cbn [session_id page action metadata].
  do 8 (split; [first [reflexivity | assumption]|]).
  destruct (String.eqb_spec (constrain_action (drawn_page d) (drawn_action d))
              "purchase") as [-> | _]; [right; simpl; tauto|].
  destruct (String.eqb_spec (constrain_action (drawn_page d) (drawn_action d))
              "add_to_cart") as [-> | _]; [right; simpl; tauto|].
  destruct (String.eqb_spec (constrain_action (drawn_page d) (drawn_action d))
              "remove_from_cart") as [-> | _]; [right; simpl; tauto|].
  left. reflexivity.
Qed.

Lemma generated_event_fits_page_witness :
  let d := mkDraws "homepage" "purchase" "e1" "mobile" "email" "{...}" "{...}" in
  let e := generate_event "s1" "7" 0 d in
  action e = "click"%string /\
  (session_id e = "s1"%string /\ page e = drawn_page d /\
   In (action e) USER_ACTIONS /\
   (In (page e) ["homepage"; "category_page"]%string ->
    In (action e) ["page_view"; "click"]%string) /\
   (page e = "product_page"%string ->
    ~ In (action e) ["begin_checkout"; "purchase"]%string) /\
   (In (page e) ["checkout_page"; "payment_page"]%string ->
    action e <> "add_to_cart"%string) /\
   (page e = "order_confirmation"%string -> action e = "page_view"%string) /\
   (action e = "purchase"%string ->
    drawn_action d = "purchase"%string /\
    In (page e) ["cart_page"; "checkout_page"; "payment_page"]%string) /\
   (metadata e = "{}"%string \/
    In (action e) ["add_to_cart"; "remove_from_cart"; "purchase"]%string)).
Proof.
  intros d e. split; [reflexivity|].
  apply (generated_event_fits_page "s1" "7" 0 d).
  - simpl; tauto.
  - simpl; tauto.
Defined.

(** X17.  Every event of a generated session carries the session's id and
    user id.  A complete-funnel session has 5 events when it stops at the
    cart, 8 when it stops at the payment page and 10 when it purchases; a
    partial session has as many events as were drawn; in all, a session has
    between 1 and 10 events. *)
Theorem generated_session_shape (s : SessionDraws) :
  drawable s ->
  (forall e, In e (generate_session s) ->
     session_id e = drawn_session_id s /\ user_id e = drawn_user_id s) /\
  List.length (generate_session s) =
    (if complete_funnel s then
       if continue_to_checkout s then
         if complete_purchase s then 10 else 8
       else 5
     else num_events s)%nat /\
  (1 <= List.length (generate_session s) <= 10)%nat.
Proof.
  intros Hd. split.
  - intros e He. apply In_nth_error in He as (i & Hi).
    destruct (generate_session_nth s i e Hi) as (H1 & H2 & _). auto.
  - rewrite generate_session_length. unfold drawable in Hd.
    destruct (complete_funnel s).
    + destruct (continue_to_checkout s), (complete_purchase s); simpl; lia.
    + destruct Hd as [Hn _]. split; [reflexivity | lia].
Qed.

(** X18.  The events of a generated session are in strict time order: the
    [i]-th event is stamped with the base time plus the pauses drawn before
    it, each of at least one second. *)
Theorem generated_session_time_order (s : SessionDraws) :
  drawable s ->
  StronglySorted (fun e e' => timestamp e < timestamp e') (generate_session s) /\
  forall i e, nth_error (generate_session s) i = Some e ->
    timestamp e = current_time s i /\ base_time s + 1000000 * Z.of_nat i <= timestamp e.
Proof.
  intros Hd. pose proof (drawable_pause s Hd) as Hp. split.
  - assert (Hsorted : StronglySorted Z.lt (map timestamp (generate_session s))).
    { rewrite generate_session_times. apply StronglySorted_map_seq.
      intros i j. now apply current_time_increases. }
    revert Hsorted. generalize (generate_session s) as l.
    induction l as [|x l IH]; intros Hs; [constructor|].
    simpl in Hs. inversion Hs as [|? ? Hl Hx]; subst.
    constructor; [now apply IH|].
    rewrite Forall_forall in *. intros y Hy. apply Hx. now apply in_map.
  - intros i e Hi.
    destruct (generate_session_nth s i e Hi) as (_ & _ & ->).
    split; [reflexivity|].
    clear Hi. induction i as [|i IH]; cbn [current_time]; [lia|].
    specialize (Hp i). lia.
Qed.

Lemma generated_session_shape_witness :
  (forall e, In e (generate_session sample_session) ->
     session_id e = "s1"%string /\ user_id e = "7"%string) /\
  List.length (generate_session sample_session) = 8%nat /\
  (1 <= List.length (generate_session sample_session) <= 10)%nat.
Proof.
  apply (generated_session_shape sample_session).
  intros i. simpl. lia.
Defined.

Lemma generated_session_time_order_witness :
  StronglySorted (fun e e' => timestamp e < timestamp e')
    (generate_session sample_session) /\
  forall i e, nth_error (generate_session sample_session) i = Some e ->
    timestamp e = current_time sample_session i /\
    1000 + 1000000 * Z.of_nat i <= timestamp e.
Proof.
  apply (generated_session_time_order sample_session).
  intros i. simpl. lia.
Defined.

(** X19.  Complete-funnel sessions give a funnel in order.  In the frame of
    the events of any number of such sessions, every session with an event
    of a funnel stage has one of the stage before it; so the session counts
    of the funnel frame do not increase from one row to the next and every
    drop rate lies in [0,1].  The first five stages, up to the cart view,
    are reached by every session. *)
Theorem complete_sessions_give_ordered_funnel (sessions : list SessionDraws) :
  (forall s, In s sessions -> complete_funnel s = true) ->
  forward_only FUNNEL_STAGES (all_events sessions) /\
  (forall st, In st (firstn 5 FUNNEL_STAGES) ->
     stage_sessions (all_events sessions) st =
     nunique (map session_id (all_events sessions))) /\
  forall rows,
    generate_funnel_analysis (all_events sessions) None = Ok rows ->
    forall j rj rk,
      nth_error rows j = Some rj -> nth_error rows (S j) = Some rk ->
      Sessions rk <= Sessions rj /\
      exists q, Drop_Rate_to_Next rk = pct (Finite q) /\ (0 <= q <= 1)%Q.
Proof.
  intros Hall.
  pose proof (complete_sessions_forward_only sessions Hall) as Hfwd.
  split; [exact Hfwd|]. split.
  - intros [p a] Hst. unfold stage_sessions.
    apply nunique_same_values. intros sid. rewrite !in_map_iff. split.
    + intros (e & Hsid & He). apply filter_In in He as [He _]. now exists e.
    + intros (e & Hsid & He).
      apply all_events_In in He as (s & Hs & He).
      destruct (session_has_step s p a) as (e0 & He0 & Hsid0 & Hp0 & Ha0).
      { rewrite (complete_session_steps s (Hall s Hs)).
        now apply complete_steps_first_five. }
      exists e0. split.
      * apply In_nth_error in He as (i & Hi).
        destruct (generate_session_nth s i e Hi) as (Hsid' & _). congruence.
      * apply filter_In. split; [apply all_events_In; now exists s|].
        now apply page_action_is_true.
  - intros rows Hrows.
    now apply (forward_only_rows FUNNEL_STAGES FUNNEL_LABELS
                 (all_events sessions)).
Qed.

Lemma complete_sessions_give_ordered_funnel_witness :
  let sessions := [sample_session] in
  forward_only FUNNEL_STAGES (all_events sessions) /\
  (forall st, In st (firstn 5 FUNNEL_STAGES) ->
     stage_sessions (all_events sessions) st =
     nunique (map session_id (all_events sessions))) /\
  forall rows,
    generate_funnel_analysis (all_events sessions) None = Ok rows ->
    forall j rj rk,
      nth_error rows j = Some rj -> nth_error rows (S j) = Some rk ->
      Sessions rk <= Sessions rj /\
      exists q, Drop_Rate_to_Next rk = pct (Finite q) /\ (0 <= q <= 1)%Q.
Proof.
  intros sessions.
  apply (complete_sessions_give_ordered_funnel sessions).
  intros s [<- | []]. reflexivity.
Defined.

(** ** What the bottleneck analysis reads *)

Section BottleneckInput.

Context {kind : SortValues}.

Lemma transition_rows_sessions labels (f f' : list FunnelRow) :
  map Sessions f = map Sessions f' ->
  transition_rows labels f = transition_rows labels f'.
Proof.
  intros Hs. unfold transition_rows. apply map_ext. intros i.
  unfold transition_row.
  assert (H : forall k, Sessions (nth k f (mkFunnelRow "" 0 NA NA)) =
                        Sessions (nth k f' (mkFunnelRow "" 0 NA NA))).
  { intros k.
    rewrite <- (map_nth Sessions f), <- (map_nth Sessions f'). now rewrite Hs. }
  now rewrite !H.
Qed.

Lemma bottleneck_analysis_sessions labels (f f' : list FunnelRow) :
  map Sessions f = map Sessions f' ->
  generate_bottleneck_analysis_in labels f =
  generate_bottleneck_analysis_in labels f'.
Proof.
  intros Hs.
  assert (Hlen : List.length f = List.length f')
    by (rewrite <- (length_map Sessions f), Hs; apply length_map).
  destruct f as [|r f], f' as [|r' f']; try discriminate; [reflexivity|].
  destruct (Nat.lt_ge_cases (List.length (r :: f)) (List.length labels)) as [H | H].
  - rewrite !bottleneck_analysis_short; try discriminate; [reflexivity | | exact H].
    now rewrite <- Hlen.
  - destruct (Nat.lt_ge_cases (List.length labels) 2) as [Hfew | Htwo].
    + rewrite !bottleneck_analysis_no_transition; try discriminate;
        [reflexivity | lia | lia].
    + rewrite !bottleneck_analysis_rows; try discriminate;
        [now rewrite (transition_rows_sessions labels _ _ Hs)
        | | exact Htwo | exact H | exact Htwo].
      now rewrite <- Hlen.
Qed.

End BottleneckInput.

(** X20.  The bottleneck analysis reads the session counts only: two funnel
    frames with the same [Sessions] column give the same result, whatever
    their labels and their (formatted) rate columns hold. *)
Theorem bottleneck_reads_sessions_only (kind : SortValues)
    (funnel_df funnel_df' : list FunnelRow) :
  map Sessions funnel_df = map Sessions funnel_df' ->
  generate_bottleneck_analysis funnel_df =
  generate_bottleneck_analysis funnel_df'.
Proof. apply bottleneck_analysis_sessions. Qed.

Lemma bottleneck_reads_sessions_only_witness :
  exists funnel_df,
    generate_funnel_analysis revisit_df None = Ok funnel_df /\
    @generate_bottleneck_analysis stable_kind funnel_df =
    @generate_bottleneck_analysis stable_kind
      (frame_of_counts [1; 2; 0; 0; 0; 0; 0; 0]).
Proof.
  eexists. split; [vm_compute; reflexivity|].
  apply (bottleneck_reads_sessions_only stable_kind).
  reflexivity.
Defined.
